(** * Personal Library: the book store of [src/App.js]

    A shallow embedding of the persistence logic of the React Native
    application in [src/App.js]: the helpers [getBooks] and [saveBooks],
    and the handlers [fetchLastBook] (HomeScreen), the [onPress] of
    [renderItem] (BookListScreen), [deleteBook] (BookDetailsScreen) and
    [saveBook] (AddEditBookScreen).

    Modelling decisions.
    - A book is a record with the four fields the code reads and writes;
      [id] is a JavaScript number that is always an integer here
      ([Date.now()]), hence [Z].  A string is a sequence of code units
      below 256.
    - [AsyncStorage] is a finite map from keys to strings.  A call may
      reject: the world carries the outcomes of the coming calls
      ([faults], [true] = the call rejects, an exhausted list = success).
      A call that rejects leaves the content as it was.
    - [async] functions are run to completion one after the other (the
      interleaving of two pending handlers is not modelled); a rejected
      promise that is awaited is a thrown exception, and [try]/[catch]
      is [try_catch] of the monad [M].
    - [Date.now()] reads the field [clock] of the world, which the
      environment sets between two handlers ([at_time]).
    - [JSON.stringify] and [JSON.parse] are library functions, not code
      of the application: they are taken through the interface [JSON],
      whose laws are what the application relies on.  The interface is
      typed: [JSON_parse] gives a list of books for a text that parses
      to an array of book records, and nothing for any other text.  The
      handlers are modelled on the storage contents the application can
      meet in use: an entry [books] that is absent, that it wrote itself
      or that does not parse.  A text that parses to another JSON value
      ([null], a number, an object) is told apart from a text that does
      not parse by [JSON_full], and [Untyped.getBooks] is [getBooks] on
      every content: it returns such a value as it is, where the typed
      [getBooks] has no value to return ([getBooks_typed_agrees],
      [getBooks_other_value]).  [RefJSON] gives a concrete codec for
      evaluation on concrete inputs.
    - [console.error], [alert], the navigation calls and the AsyncStorage
      calls are recorded in the world, so that "logged", "reported" and
      "before any store operation" can be stated. *)

From Stdlib Require Import ZArith String Ascii List Bool Lia.
From Stdlib Require Import DecimalString DecimalPos DecimalZ.
From stdpp Require Import gmap strings list pretty.

Local Open Scope Z_scope.
Local Open Scope string_scope.
Local Open Scope list_scope.

(** ** Data model *)

(** A book record, as built at [saveBook] ([{ id: Date.now(), title,
    author, status }]). *)
Record Book : Type := mkBook {
  id : Z;
  title : string;
  author : string;
  status : string
}.

#[global] Instance Book_eq_dec : EqDecision Book.
Proof. solve_decision. Defined.

(** What can be thrown: a rejected [AsyncStorage] promise, or the
    [SyntaxError] of [JSON.parse]. *)
Inductive js_error : Type :=
| StorageError
| SyntaxError.

(** One line of [console.error]: the optional message and the error. *)
Definition log_entry : Type := (option string * js_error)%type.

Inductive nav_event : Type :=
| Navigate (screen : string) (param : option Book)
| GoBack.

Inductive storage_call : Type :=
| GetItem (key : string)
| SetItem (key value : string).

Record World : Type := mkWorld {
  storage : gmap string string;   (* contents of AsyncStorage *)
  faults : list bool;               (* outcomes of the coming AsyncStorage calls *)
  clock : Z;                        (* what Date.now() returns *)
  calls : list storage_call;        (* AsyncStorage calls issued, oldest first *)
  console : list log_entry;         (* console.error lines, oldest first *)
  alerts : list string;             (* alert(...) dialogs, oldest first *)
  navigation : list nav_event;      (* navigation calls, oldest first *)
  lastBook : option Book            (* HomeScreen state [lastBook] *)
}.

(** ** The monad of handlers: state and exceptions *)

Inductive result (A : Type) : Type :=
| Ok (a : A)
| Throw (e : js_error).
Arguments Ok {A} a.
Arguments Throw {A} e.

Definition M (A : Type) : Type := World -> result A * World.

Definition ret {A : Type} (a : A) : M A := fun w => (Ok a, w).

Definition throw {A : Type} (e : js_error) : M A := fun w => (Throw e, w).

Definition bind {A B : Type} (m : M A) (k : A -> M B) : M B := fun w =>
  match m w with
  | (Ok a, w') => k a w'
  | (Throw e, w') => (Throw e, w')
  end.

Definition try_catch {A : Type} (body : M A) (handler : js_error -> M A) : M A :=
  fun w =>
    match body w with
    | (Ok a, w') => (Ok a, w')
    | (Throw e, w') => handler e w'
    end.

Declare Scope js_scope.
Delimit Scope js_scope with js.
Notation "'let*' x ':=' m 'in' k" := (bind m (fun x => k))
  (at level 10, x name, m at level 100, k at level 200) : js_scope.
Notation "m ';;' k" := (bind m (fun _ => k))
  (at level 100, k at level 200, right associativity) : js_scope.
Local Open Scope js_scope.

(** ** The runtime: AsyncStorage, console, alert, navigation, Date *)

Definition AsyncStorage_getItem (key : string) : M (option string) := fun w =>
  let w' := mkWorld (storage w) (tail (faults w)) (clock w)
                    (calls w ++ [GetItem key]) (console w) (alerts w)
                    (navigation w) (lastBook w) in
  match faults w with
  | true :: _ => (Throw StorageError, w')
  | _ => (Ok (storage w !! key), w')
  end.

Definition AsyncStorage_setItem (key value : string) : M unit := fun w =>
  let cs := calls w ++ [SetItem key value] in
  match faults w with
  | true :: fs =>
      (Throw StorageError,
       mkWorld (storage w) fs (clock w) cs (console w) (alerts w)
               (navigation w) (lastBook w))
  | _ =>
      (Ok tt,
       mkWorld (<[key := value]> (storage w)) (tail (faults w)) (clock w) cs
               (console w) (alerts w) (navigation w) (lastBook w))
  end.

Definition console_error (msg : option string) (e : js_error) : M unit := fun w =>
  (Ok tt,
   mkWorld (storage w) (faults w) (clock w) (calls w)
           (console w ++ [(msg, e)]) (alerts w) (navigation w) (lastBook w)).

Definition alert (msg : string) : M unit := fun w =>
  (Ok tt,
   mkWorld (storage w) (faults w) (clock w) (calls w) (console w)
           (alerts w ++ [msg]) (navigation w) (lastBook w)).

Definition navigation_navigate (screen : string) (param : option Book) : M unit :=
  fun w =>
    (Ok tt,
     mkWorld (storage w) (faults w) (clock w) (calls w) (console w) (alerts w)
             (navigation w ++ [Navigate screen param]) (lastBook w)).

Definition navigation_goBack : M unit := fun w =>
  (Ok tt,
   mkWorld (storage w) (faults w) (clock w) (calls w) (console w) (alerts w)
           (navigation w ++ [GoBack]) (lastBook w)).

Definition setLastBook (b : option Book) : M unit := fun w =>
  (Ok tt,
   mkWorld (storage w) (faults w) (clock w) (calls w) (console w) (alerts w)
           (navigation w) b).

Definition Date_now : M Z := fun w => (Ok (clock w), w).

(** [String(n)] for an integer [n]: its decimal text. *)
Definition JS_String (n : Z) : string := pretty n.

(** A string is truthy when it is not empty. *)
Definition truthy (s : string) : bool := negb (String.eqb s "").

(** [String.prototype.trim].  A string is a sequence of code units below
    256; the white space and line terminators of JavaScript in that range
    are U+0009 to U+000D, U+0020 and U+00A0. *)
Definition is_whitespace (c : ascii) : bool :=
  let n := N_of_ascii c in
  ((9 <=? n)%N && (n <=? 13)%N) || (n =? 32)%N || (n =? 160)%N.

Fixpoint trimStart (s : string) : string :=
  match s with
  | EmptyString => EmptyString
  | String c s' => if is_whitespace c then trimStart s' else s
  end.

Fixpoint trimEnd (s : string) : string :=
  match s with
  | EmptyString => EmptyString
  | String c s' =>
      match trimEnd s' with
      | EmptyString => if is_whitespace c then EmptyString else String c EmptyString
      | t => String c t
      end
  end.

Definition trim (s : string) : string := trimEnd (trimStart s).

(** ** The JSON codec, as the application uses it *)

Class JSON : Type := {
  JSON_stringify : list Book -> string;
  (* [Some books]: the text parses to the array of these book records;
     [None]: any other text, among which those that make [JSON.parse]
     throw a SyntaxError *)
  JSON_parse : string -> option (list Book);
  JSON_parse_stringify : forall books, JSON_parse (JSON_stringify books) = Some books;
  JSON_parse_empty : JSON_parse "" = None
}.

Definition BOOKS_KEY : string := "books".
Definition LAST_BOOK_KEY : string := "lastBook".

Section App.

Context {json : JSON}.

Definition JSON_parse_M (s : string) : M (list Book) :=
  match JSON_parse s with
  | Some books => ret books
  | None => throw SyntaxError
  end.

(** ** Helper functions to read/write books from AsyncStorage *)

Definition getBooks : M (list Book) :=
  try_catch
    (let* booksStr := AsyncStorage_getItem BOOKS_KEY in
     match booksStr with
     | Some s => if truthy s then JSON_parse_M s else ret []
     | None => ret []
     end)
    (fun e => console_error (Some "Error getting books:") e ;; ret []).

Definition saveBooks (books : list Book) : M unit :=
  try_catch
    (AsyncStorage_setItem BOOKS_KEY (JSON_stringify books))
    (fun e => console_error (Some "Error saving books:") e).

(** ** HomeScreen *)

Definition fetchLastBook : M unit :=
  try_catch
    (let* lastBookId := AsyncStorage_getItem LAST_BOOK_KEY in
     match lastBookId with
     | Some s =>
         if truthy s then
           let* books := getBooks in
           match List.find (fun b => String.eqb (JS_String (id b)) s) books with
           | Some book => setLastBook (Some book)
           | None => ret tt
           end
         else ret tt
     | None => ret tt
     end)
    (fun e => console_error None e).

(** Mounting the screen: [useState(null)], then the effect. *)
Definition HomeScreen_mount : M unit :=
  setLastBook None ;; fetchLastBook.

(** ** BookListScreen: [onPress] of [renderItem] *)

Definition renderItem_onPress (item : Book) : M unit :=
  try_catch
    (AsyncStorage_setItem LAST_BOOK_KEY (JS_String (id item)) ;;
     navigation_navigate "BookDetails" (Some item))
    (fun e => console_error None e).

(** ** BookDetailsScreen *)

Definition deleteBook (id0 : Z) : M unit :=
  try_catch
    (let* books := getBooks in
     let updatedBooks := List.filter (fun b => negb (Z.eqb (id b) id0)) books in
     saveBooks updatedBooks ;;
     navigation_goBack)
    (fun e => console_error (Some "Error deleting book:") e).

(** ** AddEditBookScreen

    [book] is [route.params.book] ([None] when the screen was opened
    without parameters, so that [editing] is falsy); [title0], [author0]
    and [status0] are the state of the three text inputs. *)

Definition saveBook (book : option Book) (title0 author0 status0 : string) : M unit :=
  if String.eqb (trim title0) "" || String.eqb (trim author0) ""
     || String.eqb (trim status0) ""
  then alert "Please fill out all fields."
  else
    let* books := getBooks in
    match book with
    | Some book0 =>
        let updatedBooks :=
          List.map (fun b =>
                      if Z.eqb (id b) (id book0)
                      then mkBook (id b) title0 author0 status0
                      else b) books in
        saveBooks updatedBooks
    | None =>
        let* now := Date_now in
        let newBook := mkBook now title0 author0 status0 in
        saveBooks (books ++ [newBook])
    end ;;
    navigation_goBack.

End App.

(** ** [getBooks] on every storage content

    [getBooks] returns what [JSON.parse] gave without looking at it
    ([return booksStr ? JSON.parse(booksStr) : []]): a stored text that
    parses to a value that is not an array of book records is returned as
    that value, and nothing is logged. *)

(** What [JSON.parse] does with a text. *)
Inductive parsed : Type :=
| Parsed_books (books : list Book)   (* the array of these book records *)
| Parsed_other                       (* another JSON value *)
| Parse_error.                       (* a SyntaxError is thrown *)

Class JSON_full (json : JSON) : Type := {
  JSON_parse_full : string -> parsed;
  JSON_parse_full_books : forall s books,
    JSON_parse_full s = Parsed_books books <-> JSON_parse s = Some books
}.

(** A value [getBooks] returns: an array of book records, or the value
    that [JSON.parse] gives for [text] when it is no such array. *)
Inductive js_value : Type :=
| Value_books (books : list Book)
| Value_other (text : string).

Module Untyped.
Section Untyped.

Context {json : JSON} {full : JSON_full json}.

Definition JSON_parse_M (s : string) : M js_value :=
  match JSON_parse_full s with
  | Parsed_books books => ret (Value_books books)
  | Parsed_other => ret (Value_other s)
  | Parse_error => throw SyntaxError
  end.

Definition getBooks : M js_value :=
  try_catch
    (let* booksStr := AsyncStorage_getItem BOOKS_KEY in
     match booksStr with
     | Some s => if truthy s then JSON_parse_M s else ret (Value_books [])
     | None => ret (Value_books [])
     end)
    (fun e => console_error (Some "Error getting books:") e ;;
              ret (Value_books [])).

End Untyped.
End Untyped.

(** The entry [books] is not a text that parses to a value other than an
    array of book records. *)
Definition typed_content {json : JSON} {full : JSON_full json}
    (st : gmap string string) : Prop :=
  forall s, st !! BOOKS_KEY = Some s -> JSON_parse_full s <> Parsed_other.

(** ** Observations used in the statements *)

(** The collection as [getBooks] reads it from a given storage content
    when the read succeeds. *)
Definition stored_books {json : JSON} (st : gmap string string) : list Book :=
  match st !! BOOKS_KEY with
  | Some s =>
      if truthy s then
        match JSON_parse s with
        | Some books => books
        | None => []
        end
      else []
  | None => []
  end.

(** The coming [n] AsyncStorage calls all succeed. *)
Definition calm (n : nat) (w : World) : Prop :=
  forallb negb (firstn n (faults w)) = true.

(** The coming AsyncStorage call rejects. *)
Definition next_fails (w : World) : bool :=
  match faults w with
  | true :: _ => true
  | _ => false
  end.

Definition ids (books : list Book) : list Z := List.map id books.

(** What [getBooks] returns, and what it logs, in a given world. *)
Definition read_result {json : JSON} (w : World) : list Book :=
  if next_fails w then [] else stored_books (storage w).

Definition read_log {json : JSON} (w : World) : list log_entry :=
  if next_fails w then [(Some "Error getting books:", StorageError)]
  else
    match storage w !! BOOKS_KEY with
    | Some s =>
        if truthy s then
          match JSON_parse s with
          | Some _ => []
          | None => [(Some "Error getting books:", SyntaxError)]
          end
        else []
    | None => []
    end.

(** The storage content and the log after [saveBooks books]. *)
Definition written {json : JSON} (books : list Book) (w : World) : gmap string string :=
  if next_fails w then storage w
  else <[BOOKS_KEY := JSON_stringify books]> (storage w).

Definition write_log (w : World) : list log_entry :=
  if next_fails w then [(Some "Error saving books:", StorageError)] else [].

(** The collection [saveBook] hands to [saveBooks], from the collection
    it read and the clock. *)
Definition updated (book : option Book) (title0 author0 status0 : string)
    (now : Z) (books : list Book) : list Book :=
  match book with
  | Some book0 =>
      List.map (fun b =>
                  if Z.eqb (id b) (id book0)
                  then mkBook (id b) title0 author0 status0
                  else b) books
  | None => books ++ [mkBook now title0 author0 status0]
  end.

(** The fields of a form pass the check of [saveBook]. *)
Definition filled (title0 author0 status0 : string) : Prop :=
  trim title0 <> "" /\ trim author0 <> "" /\ trim status0 <> "".

(** A call of [saveBook], with the clock reading and the storage outcomes
    it meets. *)
Record SaveCall : Type := mkSaveCall {
  sc_book : option Book;
  sc_title : string;
  sc_author : string;
  sc_status : string;
  sc_now : Z;
  sc_faults : list bool
}.

Definition at_time (now : Z) (fs : list bool) (w : World) : World :=
  mkWorld (storage w) fs now (calls w) (console w) (alerts w)
          (navigation w) (lastBook w).

Definition save_step {json : JSON} (c : SaveCall) (w : World) : World :=
  snd (saveBook (sc_book c) (sc_title c) (sc_author c) (sc_status c)
                (at_time (sc_now c) (sc_faults c) w)).

Fixpoint run_saves {json : JSON} (cs : list SaveCall) (w : World) : World :=
  match cs with
  | [] => w
  | c :: cs' => run_saves cs' (save_step c w)
  end.

(** Along the run, every add reads a clock value that is not the id of a
    record stored at that moment. *)
Fixpoint fresh_ids {json : JSON} (cs : list SaveCall) (w : World) : Prop :=
  match cs with
  | [] => True
  | c :: cs' =>
      (sc_book c = None -> ~ In (sc_now c) (ids (stored_books (storage w))))
      /\ fresh_ids cs' (save_step c w)
  end.

(** ** A reference JSON codec

    The text [JSON.stringify] produces for an array of books, and a
    parser of exactly that text: [[{"id":7,"title":"A","author":"X",
    "status":"read"}]].  In a string, the double quote and the backslash
    are escaped with a backslash. *)

Module RefJSON.

Definition dquote : ascii := "034"%char.
Definition backslash : ascii := "092"%char.

Definition number (n : Z) : string := NilZero.string_of_int (Z.to_int n).

Definition is_num_char (c : ascii) : bool :=
  let n := N_of_ascii c in
  (n =? 45)%N || ((48 <=? n)%N && (n <=? 57)%N).

Fixpoint all_num (s : string) : bool :=
  match s with
  | EmptyString => true
  | String c s' => is_num_char c && all_num s'
  end.

Fixpoint span_num (s : string) : string * string :=
  match s with
  | EmptyString => (EmptyString, EmptyString)
  | String c s' =>
      if is_num_char c
      then let (n, r) := span_num s' in (String c n, r)
      else (EmptyString, s)
  end.

Definition read_number (s : string) : option (Z * string) :=
  let (n, r) := span_num s in
  match NilZero.int_of_string n with
  | Some d => Some (Z.of_int d, r)
  | None => None
  end.

Definition needs_escape (c : ascii) : bool :=
  Ascii.eqb c dquote || Ascii.eqb c backslash.

Fixpoint escape (s : string) : string :=
  match s with
  | EmptyString => EmptyString
  | String c s' =>
      if needs_escape c
      then String backslash (String c (escape s'))
      else String c (escape s')
  end.

Definition quote (s : string) : string :=
  String dquote (escape s +:+ String dquote EmptyString).

(** Reads a string after its opening quote, up to the closing one. *)
Fixpoint read_chars (s : string) : option (string * string) :=
  match s with
  | EmptyString => None
  | String c s' =>
      if Ascii.eqb c dquote then Some (EmptyString, s')
      else if Ascii.eqb c backslash then
        match s' with
        | EmptyString => None
        | String c' s'' =>
            if needs_escape c' then
              match read_chars s'' with
              | Some (t, r) => Some (String c' t, r)
              | None => None
              end
            else None
        end
      else
        match read_chars s' with
        | Some (t, r) => Some (String c t, r)
        | None => None
        end
  end.

Definition read_string (s : string) : option (string * string) :=
  match s with
  | String c s' => if Ascii.eqb c dquote then read_chars s' else None
  | EmptyString => None
  end.

(** Strips the prefix [p] off [s]. *)
Fixpoint expect (p s : string) : option string :=
  match p with
  | EmptyString => Some s
  | String c p' =>
      match s with
      | String d s' => if Ascii.eqb c d then expect p' s' else None
      | EmptyString => None
      end
  end.

Definition key (k : string) : string :=
  String dquote (k +:+ String dquote ":").

Definition book_json (b : Book) : string :=
  "{" +:+ key "id" +:+ number (id b) +:+
  "," +:+ key "title" +:+ quote (title b) +:+
  "," +:+ key "author" +:+ quote (author b) +:+
  "," +:+ key "status" +:+ quote (status b) +:+ "}".

Definition read_book (s : string) : option (Book * string) :=
  match expect ("{" +:+ key "id") s with
  | None => None
  | Some s1 =>
  match read_number s1 with
  | None => None
  | Some (i, s2) =>
  match expect ("," +:+ key "title") s2 with
  | None => None
  | Some s3 =>
  match read_string s3 with
  | None => None
  | Some (t, s4) =>
  match expect ("," +:+ key "author") s4 with
  | None => None
  | Some s5 =>
  match read_string s5 with
  | None => None
  | Some (a, s6) =>
  match expect ("," +:+ key "status") s6 with
  | None => None
  | Some s7 =>
  match read_string s7 with
  | None => None
  | Some (st, s8) =>
  match expect "}" s8 with
  | None => None
  | Some s9 => Some (mkBook i t a st, s9)
  end end end end end end end end end.

Fixpoint elements (books : list Book) : string :=
  match books with
  | [] => EmptyString
  | [b] => book_json b
  | b :: rest => book_json b +:+ "," +:+ elements rest
  end.

Definition stringify (books : list Book) : string :=
  "[" +:+ elements books +:+ "]".

(** Reads the elements of a non-empty array and its closing bracket;
    [fuel] bounds the number of elements. *)
Fixpoint read_elements (fuel : nat) (s : string) : option (list Book) :=
  match fuel with
  | O => None
  | S fuel' =>
      match read_book s with
      | None => None
      | Some (b, r) =>
          match r with
          | String c r' =>
              if Ascii.eqb c "," then
                match read_elements fuel' r' with
                | Some rest => Some (b :: rest)
                | None => None
                end
              else if Ascii.eqb c "]" then
                match r' with
                | EmptyString => Some [b]
                | _ => None
                end
              else None
          | EmptyString => None
          end
      end
  end.

Definition parse (s : string) : option (list Book) :=
  match s with
  | String c s' =>
      if Ascii.eqb c "[" then
        match s' with
        | String "]" EmptyString => Some []
        | _ => read_elements (String.length s') s'
        end
      else None
  | EmptyString => None
  end.

(** The reference codec knows four texts of other JSON values; any other
    text it cannot read is a syntax error for it. *)
Definition parse_full (s : string) : parsed :=
  match parse s with
  | Some books => Parsed_books books
  | None =>
      if String.eqb s "null" || String.eqb s "true" || String.eqb s "false"
         || String.eqb s "{}"
      then Parsed_other
      else Parse_error
  end.

End RefJSON.

(** ** Concrete worlds *)

(** A world at time [now] in which nothing happened yet, all storage
    calls succeed and the collection [books] was saved earlier. *)
Definition world_of (books : list Book) (now : Z) : World :=
  mkWorld {[ BOOKS_KEY := RefJSON.stringify books ]} [] now [] [] [] [] None.

(** The same before anything was saved. *)
Definition fresh_world (now : Z) : World :=
  mkWorld ∅ [] now [] [] [] [] None.

Definition book_A : Book := mkBook 1 "A" "X" "reading".
Definition book_B : Book := mkBook 2 "B" "Y" "read".
Definition book_C : Book := mkBook 1 "C" "Z" "new".
Definition book_D : Book := mkBook 3 "D" "W" "new".

(** A world whose coming storage call rejects. *)
Definition rejecting_world : World :=
  mkWorld {[ BOOKS_KEY := RefJSON.stringify [book_A] ]} [true] 1000
          [] [] [] [] None.

(** A world whose entry [books] does not parse, and one whose entry
    [books] parses to [null]. *)
Definition corrupt_world : World :=
  mkWorld {[ BOOKS_KEY := "[{" ]} [] 1000 [] [] [] [] None.

Definition null_world : World :=
  mkWorld {[ BOOKS_KEY := "null" ]} [] 1000 [] [] [] [] None.

(** A world whose [lastBook] entry points at [book_B]. *)
Definition pointer_world : World :=
  mkWorld (<[ LAST_BOOK_KEY := "2" ]>
             {[ BOOKS_KEY := RefJSON.stringify [book_A; book_B] ]})
          [] 1000 [] [] [] [] None.

(** An add from the add screen at a given clock reading. *)
Definition add_at (now : Z) (t : string) : SaveCall :=
  mkSaveCall None t "X" "reading" now [].


(** ** The rest of the screens *)

(** BookListScreen: [fetchBooks], run each time the screen gains focus;
    the value returned is the one given to [setBooks]. *)
Definition fetchBooks {json : JSON} : M (list Book) :=
  let* booksArray := getBooks in
  ret booksArray.

(** BookListScreen: the line "No books available." is rendered when
    [books.length === 0]. *)
Definition no_books_message (books : list Book) : bool :=
  Nat.eqb (length books) 0.

(** BookListScreen: [keyExtractor] of the list, [item.id.toString()]. *)
Definition keyExtractor (item : Book) : string := JS_String (id item).

(** HomeScreen: [onPress] of the button "View Details", rendered only
    when the state [lastBook] is set. *)
Definition HomeScreen_viewDetails : M unit := fun w =>
  match lastBook w with
  | Some book => navigation_navigate "BookDetails" (Some book) w
  | None => ret tt w
  end.

(** AddEditBookScreen: the initial state of the three text inputs,
    [useState(editing ? route.params.book.title : '')] and the like. *)
Definition initial_title (book : option Book) : string :=
  match book with Some book0 => title book0 | None => "" end.

Definition initial_author (book : option Book) : string :=
  match book with Some book0 => author book0 | None => "" end.

Definition initial_status (book : option Book) : string :=
  match book with Some book0 => status book0 | None => "" end.

(** The entry [books] is absent or a text [JSON.stringify] gave, and the
    entry [lastBook] is absent or the text of an id. *)
Definition well_stored {json : JSON} (st : gmap string string) : Prop :=
  (st !! BOOKS_KEY = None \/ exists books, st !! BOOKS_KEY = Some (JSON_stringify books))
  /\ (st !! LAST_BOOK_KEY = None \/ exists i, st !! LAST_BOOK_KEY = Some (JS_String i)).

(** Every add of the sequence reads a clock value above [lo] and above
    the readings of the adds before it. *)
Fixpoint increasing_clock (lo : Z) (cs : list SaveCall) : Prop :=
  match cs with
  | [] => True
  | c :: cs' =>
      match sc_book c with
      | Some _ => increasing_clock lo cs'
      | None => lo < sc_now c /\ increasing_clock (sc_now c) cs'
      end
  end.

(** The second of the coming AsyncStorage calls rejects. *)
Definition second_fails (w : World) : bool :=
  match tail (faults w) with
  | true :: _ => true
  | _ => false
  end.

(** The string has no character but white space. *)
Fixpoint all_whitespace (s : string) : bool :=
  match s with
  | EmptyString => true
  | String c s' => is_whitespace c && all_whitespace s'
  end.

(** A world in which [books] was saved earlier and the coming storage
    calls have the outcomes [fs]. *)
Definition world_with (books : list Book) (fs : list bool) : World :=
  mkWorld {[ BOOKS_KEY := RefJSON.stringify books ]} fs 1000 [] [] [] [] None.

(** A world whose home screen resolved [book_A] earlier. *)
Definition home_world : World :=
  mkWorld {[ BOOKS_KEY := RefJSON.stringify [book_A; book_B] ]} [] 1000
          [] [] [] [] (Some book_A).

(** A world whose [lastBook] entry points at [book_B] and whose second
    coming storage call rejects. *)
Definition pointer_world_rejecting : World :=
  mkWorld (<[ LAST_BOOK_KEY := "2" ]>
             {[ BOOKS_KEY := RefJSON.stringify [book_A; book_B] ]})
          [false; true] 1000 [] [] [] [] None.

(** * Properties *)

Section Properties.

Context {json : JSON}.

(** ** The runtime *)

Lemma truthy_empty : truthy "" = false.
Proof. reflexivity. Qed.

Lemma truthy_spec (s : string) : truthy s = true <-> s <> "".
Proof.
  unfold truthy. destruct (String.eqb_spec s ""); simpl; split; congruence.
Qed.

Lemma JSON_stringify_truthy (books : list Book) : truthy (JSON_stringify books) = true.
Proof.
  apply truthy_spec. intros E.
  pose proof (JSON_parse_stringify books) as R.
  rewrite E, JSON_parse_empty in R. discriminate.
Qed.

Lemma JS_String_inj (m n : Z) : JS_String m = JS_String n -> m = n.
Proof. unfold JS_String. apply (inj pretty). Qed.

Lemma JS_String_eqb (m n : Z) :
  String.eqb (JS_String m) (JS_String n) = Z.eqb m n.
Proof.
  destruct (Z.eqb_spec m n) as [->|N].
  - apply String.eqb_refl.
  - apply String.eqb_neq. intros E. apply N, JS_String_inj, E.
Qed.

Lemma pretty_N_go_nonempty (x : N) (s : string) :
  s <> "" -> pretty_N_go x s <> "".
Proof.
  revert s. induction (N.lt_wf_0 x) as [x _ IH]. intros s Hs.
  destruct (N.eq_dec x 0%N) as [->|Hx].
  - now rewrite pretty_N_go_0.
  - rewrite pretty_N_go_step by lia.
    apply IH; [apply N.div_lt; lia | discriminate].
Qed.

Lemma JS_String_nonempty (n : Z) : JS_String n <> "".
Proof.
  unfold JS_String, pretty, pretty_Z.
  destruct n as [|p|p]; [discriminate| |discriminate].
  unfold pretty, pretty_positive, pretty, pretty_N.
  destruct (decide (N.pos p = 0%N)) as [E|_]; [discriminate E|].
  rewrite pretty_N_go_step by lia.
  apply pretty_N_go_nonempty. discriminate.
Qed.

Lemma JS_String_truthy (n : Z) : truthy (JS_String n) = true.
Proof. apply truthy_spec, JS_String_nonempty. Qed.

(** ** [getBooks] and [saveBooks], step by step *)

Lemma getBooks_run (w : World) :
  getBooks w =
  (Ok (read_result w),
   mkWorld (storage w) (tail (faults w)) (clock w)
           (calls w ++ [GetItem BOOKS_KEY]) (console w ++ read_log w)
           (alerts w) (navigation w) (lastBook w)).
Proof.
  unfold getBooks, try_catch, bind, AsyncStorage_getItem, read_result,
    read_log, stored_books, next_fails, JSON_parse_M.
  destruct (faults w) as [|[|] fs]; simpl;
    try (destruct (storage w !! BOOKS_KEY) as [s|]; simpl;
         [destruct (truthy s); simpl; [destruct (JSON_parse s); simpl|]|]);
    unfold ret, throw, console_error; simpl;
    rewrite ?app_nil_r; reflexivity.
Qed.

Lemma saveBooks_run (books : list Book) (w : World) :
  saveBooks books w =
  (Ok tt,
   mkWorld (written books w) (tail (faults w)) (clock w)
           (calls w ++ [SetItem BOOKS_KEY (JSON_stringify books)])
           (console w ++ write_log w) (alerts w) (navigation w) (lastBook w)).
Proof.
  unfold saveBooks, try_catch, AsyncStorage_setItem, written, write_log,
    next_fails, console_error.
  destruct (faults w) as [|[|] fs]; simpl; rewrite ?app_nil_r; reflexivity.
Qed.

Lemma stored_books_written (books : list Book) (st : gmap string string) :
  stored_books (<[BOOKS_KEY := JSON_stringify books]> st) = books.
Proof.
  unfold stored_books. rewrite lookup_insert_eq.
  now rewrite JSON_stringify_truthy, JSON_parse_stringify.
Qed.

Lemma calm_next (n : nat) (w : World) :
  calm (S n) w -> next_fails w = false.
Proof.
  unfold calm, next_fails. destruct (faults w) as [|[|] fs]; simpl; congruence.
Qed.

Lemma calm_tail (n : nat) (w w' : World) :
  faults w' = tail (faults w) -> calm (S n) w -> calm n w'.
Proof.
  unfold calm. intros ->. destruct (faults w) as [|f fs]; simpl.
  - now destruct n.
  - intros H. apply andb_true_iff in H. tauto.
Qed.

(** ** The handlers, step by step *)

Lemma filled_check (t a s : string) :
  filled t a s ->
  String.eqb (trim t) "" || String.eqb (trim a) "" || String.eqb (trim s) "" = false.
Proof.
  intros (Ht & Ha & Hs).
  apply String.eqb_neq in Ht, Ha, Hs. now rewrite Ht, Ha, Hs.
Qed.

Lemma blank_check (t a s : string) :
  trim t = "" \/ trim a = "" \/ trim s = "" ->
  String.eqb (trim t) "" || String.eqb (trim a) "" || String.eqb (trim s) "" = true.
Proof.
  intros [E|[E|E]]; rewrite E; simpl; rewrite ?orb_true_r; reflexivity.
Qed.

Lemma saveBook_run (book : option Book) (t a s : string) (w : World) :
  filled t a s ->
  let w1 := snd (getBooks w) in
  let books := updated book t a s (clock w) (read_result w) in
  saveBook book t a s w =
  (Ok tt,
   mkWorld (written books w1) (tail (faults w1)) (clock w)
           (calls w1 ++ [SetItem BOOKS_KEY (JSON_stringify books)])
           (console w1 ++ write_log w1) (alerts w)
           (navigation w ++ [GoBack]) (lastBook w)).
Proof.
  intros F. unfold saveBook. rewrite (filled_check _ _ _ F).
  unfold bind at 1. rewrite getBooks_run. cbn [snd].
  destruct book as [book0|]; unfold bind, Date_now, updated;
    rewrite saveBooks_run; reflexivity.
Qed.

Lemma deleteBook_run (i : Z) (w : World) :
  let w1 := snd (getBooks w) in
  let books := List.filter (fun b => negb (Z.eqb (id b) i)) (read_result w) in
  deleteBook i w =
  (Ok tt,
   mkWorld (written books w1) (tail (faults w1)) (clock w)
           (calls w1 ++ [SetItem BOOKS_KEY (JSON_stringify books)])
           (console w1 ++ write_log w1) (alerts w)
           (navigation w ++ [GoBack]) (lastBook w)).
Proof.
  unfold deleteBook, try_catch, bind. rewrite getBooks_run. cbn [snd].
  rewrite saveBooks_run. reflexivity.
Qed.

Lemma renderItem_onPress_run (item : Book) (w : World) :
  renderItem_onPress item w =
  (Ok tt,
   mkWorld (if next_fails w then storage w
            else <[LAST_BOOK_KEY := JS_String (id item)]> (storage w))
           (tail (faults w)) (clock w)
           (calls w ++ [SetItem LAST_BOOK_KEY (JS_String (id item))])
           (console w ++ if next_fails w then [(None, StorageError)] else [])
           (alerts w)
           (navigation w ++ if next_fails w then []
                            else [Navigate "BookDetails" (Some item)])
           (lastBook w)).
Proof.
  unfold renderItem_onPress, try_catch, bind, AsyncStorage_setItem,
    navigation_navigate, console_error, next_fails.
  destruct (faults w) as [|[|] fs]; simpl; rewrite ?app_nil_r; reflexivity.
Qed.

(** The storage content after a read and a write that both succeed. *)
Lemma written_after_read (books : list Book) (w : World) :
  calm 2 w ->
  written books (snd (getBooks w)) = <[BOOKS_KEY := JSON_stringify books]> (storage w).
Proof.
  intros C. rewrite getBooks_run. unfold written. cbn [snd].
  assert (C1 : calm 1 (mkWorld (storage w) (tail (faults w)) (clock w)
           (calls w ++ [GetItem BOOKS_KEY]) (console w ++ read_log w)
           (alerts w) (navigation w) (lastBook w))).
  { eapply calm_tail; [reflexivity | exact C]. }
  now rewrite (calm_next _ _ C1).
Qed.

Lemma read_result_calm (n : nat) (w : World) :
  calm (S n) w -> read_result w = stored_books (storage w).
Proof. intros C. unfold read_result. now rewrite (calm_next _ _ C). Qed.

Lemma find_JS_String (i : Z) (books : list Book) :
  List.find (fun b => String.eqb (JS_String (id b)) (JS_String i)) books =
  List.find (fun b => Z.eqb (id b) i) books.
Proof.
  induction books as [|b books IH]; simpl; [reflexivity|].
  now rewrite JS_String_eqb, IH.
Qed.

Lemma fetchLastBook_run (i : Z) (w : World) :
  next_fails w = false ->
  storage w !! LAST_BOOK_KEY = Some (JS_String i) ->
  let w1 := mkWorld (storage w) (tail (faults w)) (clock w)
                    (calls w ++ [GetItem LAST_BOOK_KEY]) (console w)
                    (alerts w) (navigation w) (lastBook w) in
  let w2 := snd (getBooks w1) in
  fetchLastBook w =
  (Ok tt,
   mkWorld (storage w) (faults w2) (clock w) (calls w2) (console w2)
           (alerts w) (navigation w)
           (match List.find (fun b => Z.eqb (id b) i) (read_result w1) with
            | Some b => Some b
            | None => lastBook w
            end)).
Proof.
  intros NF P. unfold fetchLastBook, try_catch, bind at 1, AsyncStorage_getItem.
  unfold next_fails in NF. rewrite P.
  destruct (faults w) as [|[|] fs]; try discriminate;
    rewrite JS_String_truthy; unfold bind; rewrite getBooks_run;
    rewrite find_JS_String; cbn [snd];
    destruct (List.find _ _); reflexivity.
Qed.

Lemma fetchLastBook_run_absent (w : World) :
  next_fails w = false ->
  storage w !! LAST_BOOK_KEY = None ->
  fetchLastBook w =
  (Ok tt,
   mkWorld (storage w) (tail (faults w)) (clock w)
           (calls w ++ [GetItem LAST_BOOK_KEY]) (console w)
           (alerts w) (navigation w) (lastBook w)).
Proof.
  intros NF P. unfold fetchLastBook, try_catch, bind, AsyncStorage_getItem.
  unfold next_fails in NF. rewrite P.
  destruct (faults w) as [|[|] fs]; try discriminate; reflexivity.
Qed.

Lemma filter_absent (i : Z) (books : list Book) :
  ~ In i (ids books) ->
  List.filter (fun b => negb (Z.eqb (id b) i)) books = books.
Proof.
  induction books as [|b books IH]; simpl; [reflexivity|].
  intros N. destruct (Z.eqb_spec (id b) i) as [E|_]; simpl.
  - exfalso. apply N. now left.
  - f_equal. apply IH. intros H. apply N. now right.
Qed.

Lemma filter_sublist (f : Book -> bool) (books : list Book) :
  sublist (List.filter f books) books.
Proof.
  induction books as [|b books IH]; simpl; [constructor|].
  destruct (f b); now constructor.
Qed.

Lemma filter_count_occ (i : Z) (b : Book) (books : list Book) :
  id b <> i ->
  count_occ Book_eq_dec (List.filter (fun x => negb (Z.eqb (id x) i)) books) b =
  count_occ Book_eq_dec books b.
Proof.
  intros N. induction books as [|x books IH]; simpl; [reflexivity|].
  destruct (Z.eqb_spec (id x) i) as [E|_]; simpl.
  - destruct (Book_eq_dec x b) as [->|_]; [contradiction|exact IH].
  - destruct (Book_eq_dec x b); now rewrite IH.
Qed.

(** ** Deleting *)

(** C5: when the read and the write succeed, [deleteBook i] returns
    normally, raises no dialog, and persists under the key [books] the
    stored collection without the records whose id is [i]; when no record
    has that id the collection read back is the same as before (and
    nothing is logged when the stored text was written by [saveBooks]). *)
Theorem deleteBook_removes (i : Z) (w : World) :
  calm 2 w ->
  let old := stored_books (storage w) in
  let kept := List.filter (fun b => negb (Z.eqb (id b) i)) old in
  let w' := snd (deleteBook i w) in
  fst (deleteBook i w) = Ok tt
  /\ alerts w' = alerts w
  /\ storage w' = <[BOOKS_KEY := JSON_stringify kept]> (storage w)
  /\ stored_books (storage w') = kept
  /\ (~ In i (ids old) -> stored_books (storage w') = old)
  /\ (forall books, storage w !! BOOKS_KEY = Some (JSON_stringify books) ->
      console w' = console w).
Proof.
  intros C old kept w'. subst w'. rewrite deleteBook_run. cbn [fst snd].
  cbn [storage alerts console].
  rewrite (read_result_calm 1 w C), (written_after_read _ w C).
  fold old. fold kept.
  repeat split.
  - apply stored_books_written.
  - intros N. rewrite stored_books_written. now apply filter_absent.
  - intros books E. rewrite getBooks_run. cbn [snd console faults].
    assert (C1 : calm 1 (mkWorld (storage w) (tail (faults w)) (clock w)
           (calls w ++ [GetItem BOOKS_KEY]) (console w ++ read_log w)
           (alerts w) (navigation w) (lastBook w))).
    { eapply calm_tail; [reflexivity | exact C]. }
    unfold write_log. rewrite (calm_next _ _ C1).
    unfold read_log. rewrite (calm_next _ _ C), E.
    rewrite JSON_stringify_truthy, JSON_parse_stringify.
    now rewrite !app_nil_r.
Qed.

(** C10: when the read and the write succeed, [deleteBook i] leaves
    exactly the stored records whose id is not [i]: every record with that
    id is gone, however many there were; every other record is kept as
    often as it occurred; and the records kept are in their former
    order. *)
Theorem deleteBook_removes_every_match (i : Z) (w : World) :
  calm 2 w ->
  let old := stored_books (storage w) in
  let new := stored_books (storage (snd (deleteBook i w))) in
  new = List.filter (fun b => negb (Z.eqb (id b) i)) old
  /\ (forall b, In b new -> id b <> i)
  /\ (forall b, id b <> i ->
      count_occ Book_eq_dec new b = count_occ Book_eq_dec old b)
  /\ sublist new old.
Proof.
  intros C old new.
  assert (E : new = List.filter (fun b => negb (Z.eqb (id b) i)) old).
  { subst new. rewrite deleteBook_run. cbn [snd storage].
    rewrite (read_result_calm 1 w C), (written_after_read _ w C).
    apply stored_books_written. }
  rewrite E. repeat split.
  - intros b H. apply filter_In in H as [_ H].
    apply negb_true_iff, Z.eqb_neq in H. exact H.
  - intros b N. now apply filter_count_occ.
  - apply filter_sublist.
Qed.

(** ** Validation *)

(** C7: when the title, the author or the status is blank (empty once
    trimmed), [saveBook] raises the dialog and returns: no AsyncStorage
    call is issued (the list of calls and the pending outcomes are as
    before), the storage content is unchanged, nothing is logged and the
    screen does not go back. *)
Theorem saveBook_blank_field_rejected
    (book : option Book) (t a s : string) (w : World) :
  trim t = "" \/ trim a = "" \/ trim s = "" ->
  saveBook book t a s w =
  (Ok tt,
   mkWorld (storage w) (faults w) (clock w) (calls w) (console w)
           (alerts w ++ ["Please fill out all fields."])
           (navigation w) (lastBook w)).
Proof.
  intros B. unfold saveBook. rewrite (blank_check _ _ _ B). reflexivity.
Qed.

(** ** Storage errors *)

Lemma fetchLastBook_returns (w : World) : fst (fetchLastBook w) = Ok tt.
Proof.
  unfold fetchLastBook, try_catch, bind at 1, AsyncStorage_getItem.
  destruct (faults w) as [|[|] fs]; [|reflexivity|];
    (destruct (storage w !! LAST_BOOK_KEY) as [p|]; [|reflexivity];
     destruct (truthy p); [|reflexivity];
     unfold bind; rewrite getBooks_run;
     destruct (List.find _ _); reflexivity).
Qed.

(** [getBooks] on every content, step by step. *)
Lemma Untyped_getBooks_run {full : JSON_full json} (w : World) :
  Untyped.getBooks w =
  (Ok (if next_fails w then Value_books []
       else match storage w !! BOOKS_KEY with
            | Some s =>
                if truthy s then
                  match JSON_parse_full s with
                  | Parsed_books books => Value_books books
                  | Parsed_other => Value_other s
                  | Parse_error => Value_books []
                  end
                else Value_books []
            | None => Value_books []
            end),
   mkWorld (storage w) (tail (faults w)) (clock w)
           (calls w ++ [GetItem BOOKS_KEY])
           (console w ++
            if next_fails w then [(Some "Error getting books:", StorageError)]
            else match storage w !! BOOKS_KEY with
                 | Some s =>
                     if truthy s then
                       match JSON_parse_full s with
                       | Parse_error => [(Some "Error getting books:", SyntaxError)]
                       | _ => []
                       end
                     else []
                 | None => []
                 end)
           (alerts w) (navigation w) (lastBook w)).
Proof.
  unfold Untyped.getBooks, try_catch, bind, AsyncStorage_getItem, next_fails,
    Untyped.JSON_parse_M.
  destruct (faults w) as [|[|] fs]; simpl;
    try (destruct (storage w !! BOOKS_KEY) as [s|]; simpl;
         [destruct (truthy s); simpl; [destruct (JSON_parse_full s); simpl|]|]);
    unfold ret, throw, console_error; simpl;
    rewrite ?app_nil_r; reflexivity.
Qed.

(** On a content that is not a text parsing to another JSON value, the
    typed [getBooks] is [getBooks]. *)
Lemma getBooks_typed_agrees {full : JSON_full json} (w : World) :
  typed_content (storage w) ->
  exists books,
    getBooks w = (Ok books, snd (getBooks w))
    /\ Untyped.getBooks w = (Ok (Value_books books), snd (getBooks w)).
Proof.
  intros T. exists (read_result w).
  rewrite Untyped_getBooks_run, getBooks_run. cbn [snd]. split; [reflexivity|].
  unfold read_result, read_log, stored_books.
  destruct (next_fails w); [reflexivity|].
  specialize (T). unfold typed_content in T.
  destruct (storage w !! BOOKS_KEY) as [s|]; [|reflexivity].
  specialize (T s eq_refl).
  destruct (truthy s); [|reflexivity].
  destruct (JSON_parse_full s) as [books| |] eqn:E.
  - apply JSON_parse_full_books in E. now rewrite E.
  - contradiction.
  - destruct (JSON_parse s) as [books|] eqn:P; [|reflexivity].
    apply JSON_parse_full_books in P. congruence.
Qed.

(** A stored text that parses to another JSON value is returned as that
    value: [getBooks] does not check what it parsed, and logs nothing. *)
Lemma getBooks_other_value {full : JSON_full json} (s : string) (w : World) :
  next_fails w = false ->
  storage w !! BOOKS_KEY = Some s ->
  s <> "" ->
  JSON_parse_full s = Parsed_other ->
  fst (Untyped.getBooks w) = Ok (Value_other s)
  /\ console (snd (Untyped.getBooks w)) = console w.
Proof.
  intros N P T E. apply truthy_spec in T.
  rewrite Untyped_getBooks_run. cbn [fst snd console].
  rewrite N, P, T, E. split; [reflexivity | apply app_nil_r].
Qed.

(** C4: [getBooks] and [saveBooks] never throw, whatever is stored.  A
    read that rejects makes [getBooks] return the empty array and log the
    error, the storage content being untouched; so does a stored text
    that makes [JSON.parse] throw; an entry that is absent or empty gives
    the empty array as well, with nothing logged.  [saveBooks] returns the
    same value whether the write succeeds or rejects; a write that rejects
    is logged, is not tried again, raises no dialog and leaves the storage
    content as it was. *)
Theorem storage_errors_contained {full : JSON_full json}
    (books : list Book) (w : World) :
  (forall e, fst (Untyped.getBooks w) <> Throw e)
  /\ (next_fails w = true ->
      fst (Untyped.getBooks w) = Ok (Value_books [])
      /\ storage (snd (Untyped.getBooks w)) = storage w
      /\ console (snd (Untyped.getBooks w)) =
         console w ++ [(Some "Error getting books:", StorageError)])
  /\ (forall s, next_fails w = false ->
      storage w !! BOOKS_KEY = Some s -> s <> "" ->
      JSON_parse_full s = Parse_error ->
      fst (Untyped.getBooks w) = Ok (Value_books [])
      /\ console (snd (Untyped.getBooks w)) =
         console w ++ [(Some "Error getting books:", SyntaxError)])
  /\ (next_fails w = false ->
      storage w !! BOOKS_KEY = None \/ storage w !! BOOKS_KEY = Some "" ->
      fst (Untyped.getBooks w) = Ok (Value_books [])
      /\ console (snd (Untyped.getBooks w)) = console w)
  /\ fst (saveBooks books w) = Ok tt
  /\ (next_fails w = true ->
      storage (snd (saveBooks books w)) = storage w
      /\ calls (snd (saveBooks books w)) =
         calls w ++ [SetItem BOOKS_KEY (JSON_stringify books)]
      /\ alerts (snd (saveBooks books w)) = alerts w
      /\ console (snd (saveBooks books w)) =
         console w ++ [(Some "Error saving books:", StorageError)]).
Proof.
  rewrite Untyped_getBooks_run, saveBooks_run.
  cbn [fst snd storage console alerts calls].
  unfold written, write_log.
  split; [discriminate|].
  split; [intros F; now rewrite F|].
  split.
  { intros s NF P N E. apply truthy_spec in N. now rewrite NF, P, N, E. }
  split.
  { intros NF [P|P]; rewrite NF, P; cbn; rewrite app_nil_r; easy. }
  split; [reflexivity|].
  intros F. now rewrite F.
Qed.

(** ** The two entries *)

(** C9: whatever the outcome of the storage calls, pressing an item
    changes no entry but [lastBook] (the [books] entry in particular is as
    before), and [saveBook] and [deleteBook] change no entry but [books]
    (the [lastBook] entry in particular is as before). *)
Theorem books_and_lastBook_independent
    (item : Book) (i : Z) (book : option Book) (t a s : string) (w : World) :
  (delete LAST_BOOK_KEY (storage (snd (renderItem_onPress item w))) =
   delete LAST_BOOK_KEY (storage w)
   /\ storage (snd (renderItem_onPress item w)) !! BOOKS_KEY =
      storage w !! BOOKS_KEY)
  /\ (delete BOOKS_KEY (storage (snd (saveBook book t a s w))) =
      delete BOOKS_KEY (storage w)
      /\ storage (snd (saveBook book t a s w)) !! LAST_BOOK_KEY =
         storage w !! LAST_BOOK_KEY)
  /\ (delete BOOKS_KEY (storage (snd (deleteBook i w))) =
      delete BOOKS_KEY (storage w)
      /\ storage (snd (deleteBook i w)) !! LAST_BOOK_KEY =
         storage w !! LAST_BOOK_KEY).
Proof.
  assert (W : forall l w0,
             delete BOOKS_KEY (written l w0) = delete BOOKS_KEY (storage w0)
             /\ written l w0 !! LAST_BOOK_KEY = storage w0 !! LAST_BOOK_KEY).
  { intros l w0. unfold written. destruct (next_fails w0); [easy|].
    split; [apply delete_insert_eq | now apply lookup_insert_ne]. }
  assert (G : storage (snd (getBooks w)) = storage w).
  { now rewrite getBooks_run. }
  split; [|split].
  - rewrite renderItem_onPress_run. cbn [snd storage].
    destruct (next_fails w); [easy|].
    split; [apply delete_insert_eq | now apply lookup_insert_ne].
  - destruct (String.eqb (trim t) "" || String.eqb (trim a) ""
              || String.eqb (trim s) "") eqn:E.
    + unfold saveBook. rewrite E. easy.
    + assert (F : filled t a s).
      { apply orb_false_iff in E as [E Es].
        apply orb_false_iff in E as [Et Ea].
        apply String.eqb_neq in Et, Ea, Es. easy. }
      rewrite (saveBook_run book t a s w F). cbn [snd storage].
      rewrite <- G. apply W.
  - rewrite deleteBook_run. cbn [snd storage]. rewrite <- G. apply W.
Qed.

(** ** The last viewed book *)

Lemma calm_tail2 (n : nat) (w w' : World) :
  faults w' = tail (tail (faults w)) -> calm (S (S n)) w -> calm n w'.
Proof.
  intros E C.
  apply (calm_tail n (mkWorld (storage w) (tail (faults w)) (clock w) (calls w)
                        (console w) (alerts w) (navigation w) (lastBook w)));
    [exact E|].
  now apply (calm_tail (S n) w).
Qed.

Lemma deleteBook_faults (i : Z) (w : World) :
  faults (snd (deleteBook i w)) = tail (tail (faults w)).
Proof. rewrite deleteBook_run, getBooks_run. reflexivity. Qed.

Lemma deleteBook_storage (i : Z) (w : World) :
  calm 2 w ->
  storage (snd (deleteBook i w)) =
  <[BOOKS_KEY := JSON_stringify
                   (List.filter (fun b => negb (Z.eqb (id b) i))
                                (stored_books (storage w)))]> (storage w).
Proof.
  intros C. rewrite deleteBook_run. cbn [snd storage].
  now rewrite (read_result_calm 1 w C), (written_after_read _ w C).
Qed.

Lemma read_log_written (books : list Book) (w : World) :
  next_fails w = false ->
  storage w !! BOOKS_KEY = Some (JSON_stringify books) ->
  read_log w = [].
Proof.
  intros NF E. unfold read_log.
  now rewrite NF, E, JSON_stringify_truthy, JSON_parse_stringify.
Qed.

Lemma find_filtered_out (i : Z) (books : list Book) :
  List.find (fun b => Z.eqb (id b) i)
            (List.filter (fun b => negb (Z.eqb (id b) i)) books) = None.
Proof.
  induction books as [|b books IH]; simpl; [reflexivity|].
  destruct (Z.eqb (id b) i) eqn:E; simpl; [exact IH|].
  now rewrite E.
Qed.

Lemma HomeScreen_mount_run (w : World) :
  HomeScreen_mount w =
  fetchLastBook (mkWorld (storage w) (faults w) (clock w) (calls w) (console w)
                         (alerts w) (navigation w) None).
Proof. reflexivity. Qed.

(** C8: a [saveBooks] that succeeds leaves under the key [books] the
    text [JSON.stringify] gives for the sequence of records, which parses
    back to that sequence; a press that succeeds leaves under the key
    [lastBook] the decimal text of the id of the item, a text that is not
    empty and that no other id has; and mounting the
    home screen resolves that text against the stored collection: the
    state [lastBook] becomes the first stored record whose id has that
    text, and stays [null] when there is none or when the entry is
    absent. *)
Theorem persisted_layout (books : list Book) (item : Book) (w : World) :
  (BOOKS_KEY = "books" /\ LAST_BOOK_KEY = "lastBook")
  /\ (next_fails w = false ->
      storage (snd (saveBooks books w)) !! "books" = Some (JSON_stringify books)
      /\ JSON_parse (JSON_stringify books) = Some books)
  /\ (next_fails w = false ->
      storage (snd (renderItem_onPress item w)) !! "lastBook" =
      Some (JS_String (id item))
      /\ JS_String (id item) <> ""
      /\ (forall j, JS_String j = JS_String (id item) -> j = id item))
  /\ (forall i, calm 2 w ->
      storage w !! "lastBook" = Some (JS_String i) ->
      lastBook (snd (HomeScreen_mount w)) =
      List.find (fun b => Z.eqb (id b) i) (stored_books (storage w)))
  /\ (calm 1 w -> storage w !! "lastBook" = None ->
      lastBook (snd (HomeScreen_mount w)) = None).
Proof.
  split; [split; reflexivity|].
  split.
  { intros NF. rewrite saveBooks_run. cbn [snd storage]. unfold written.
    rewrite NF. split; [apply lookup_insert_eq | apply JSON_parse_stringify]. }
  split.
  { intros NF. rewrite renderItem_onPress_run. cbn [snd storage].
    rewrite NF. split; [apply lookup_insert_eq|].
    split; [apply JS_String_nonempty | intros j; apply JS_String_inj]. }
  split.
  - intros i C P. rewrite HomeScreen_mount_run.
    rewrite (fetchLastBook_run i); [|exact (calm_next 1 w C)|exact P].
    cbn [snd lastBook storage]. unfold read_result, next_fails. cbn [faults].
    assert (N : next_fails (mkWorld (storage w) (tail (faults w)) (clock w)
                  (calls w) (console w) (alerts w) (navigation w) (lastBook w))
                = false).
    { apply (calm_next 0). now apply (calm_tail 1 w). }
    unfold next_fails in N. cbn [faults] in N. rewrite N. cbn [storage].
    now destruct (List.find _ _).
  - intros C P. rewrite HomeScreen_mount_run.
    rewrite fetchLastBook_run_absent; [reflexivity|exact (calm_next 0 w C)|exact P].
Qed.

(** C6: when the five storage calls succeed, after pressing [item] and
    then deleting the book with its id, the entry [lastBook] still holds
    the text of that id although no stored record has it; mounting the
    home screen then returns normally with the state [lastBook] at [null]
    ("No book opened yet."), logs nothing, raises no dialog and leaves the
    entry in place; and the effect alone does not set the state. *)
Theorem dangling_lastBook_tolerated (item : Book) (w : World) :
  calm 5 w ->
  let w1 := snd (renderItem_onPress item w) in
  let w2 := snd (deleteBook (id item) w1) in
  let w3 := snd (HomeScreen_mount w2) in
  storage w2 !! LAST_BOOK_KEY = Some (JS_String (id item))
  /\ ~ In (id item) (ids (stored_books (storage w2)))
  /\ fst (HomeScreen_mount w2) = Ok tt
  /\ lastBook w3 = None
  /\ console w3 = console w2
  /\ alerts w3 = alerts w2
  /\ storage w3 !! LAST_BOOK_KEY = Some (JS_String (id item))
  /\ lastBook (snd (fetchLastBook w2)) = lastBook w2.
Proof.
  intros C w1 w2 w3.
  assert (C1 : calm 4 w1).
  { apply (calm_tail 4 w); [|exact C]. subst w1.
    now rewrite renderItem_onPress_run. }
  assert (S1 : storage w1 = <[LAST_BOOK_KEY := JS_String (id item)]> (storage w)).
  { subst w1. rewrite renderItem_onPress_run. cbn [snd storage].
    now rewrite (calm_next 4 w C). }
  assert (C2 : calm 2 w2).
  { apply (calm_tail2 2 w1); [|exact C1]. apply deleteBook_faults. }
  assert (S2 : storage w2 =
               <[BOOKS_KEY := JSON_stringify
                   (List.filter (fun b => negb (Z.eqb (id b) (id item)))
                                (stored_books (storage w1)))]> (storage w1)).
  { apply deleteBook_storage. unfold calm in *.
    destruct (faults w1) as [|f1 [|f2 fs]]; simpl in *; trivial.
    apply andb_true_iff in C1 as [-> C1].
    apply andb_true_iff in C1 as [-> _]. reflexivity. }
  assert (P2 : storage w2 !! LAST_BOOK_KEY = Some (JS_String (id item))).
  { rewrite S2, lookup_insert_ne by discriminate.
    rewrite S1. apply lookup_insert_eq. }
  assert (B2 : stored_books (storage w2) =
               List.filter (fun b => negb (Z.eqb (id b) (id item)))
                           (stored_books (storage w1))).
  { rewrite S2. apply stored_books_written. }
  set (w2' := mkWorld (storage w2) (faults w2) (clock w2) (calls w2)
                      (console w2) (alerts w2) (navigation w2) None).
  assert (R : forall v, faults v = faults w2 -> storage v = storage w2 ->
              let v1 := mkWorld (storage v) (tail (faults v)) (clock v)
                          (calls v ++ [GetItem LAST_BOOK_KEY]) (console v)
                          (alerts v) (navigation v) (lastBook v) in
              read_result v1 = stored_books (storage w2) /\ read_log v1 = []).
  { intros v Fv Sv v1.
    assert (Cv : calm 1 v1).
    { apply (calm_tail 1 w2); [subst v1; cbn [faults]; now rewrite Fv|exact C2]. }
    split.
    - rewrite (read_result_calm 0 v1 Cv). subst v1. cbn [storage]. now rewrite Sv.
    - eapply read_log_written; [exact (calm_next 0 v1 Cv)|].
      subst v1. cbn [storage]. rewrite Sv, S2. apply lookup_insert_eq. }
  split; [exact P2|].
  split.
  { rewrite B2. unfold ids. intros H. apply in_map_iff in H as (b & E & H).
    apply filter_In in H as [_ H]. apply negb_true_iff, Z.eqb_neq in H.
    contradiction. }
  assert (F : forall v, faults v = faults w2 -> storage v = storage w2 ->
              fst (fetchLastBook v) = Ok tt
              /\ lastBook (snd (fetchLastBook v)) = lastBook v
              /\ console (snd (fetchLastBook v)) = console v
              /\ alerts (snd (fetchLastBook v)) = alerts v
              /\ storage (snd (fetchLastBook v)) = storage v).
  { intros v Fv Sv. destruct (R v Fv Sv) as [Rr Rl].
    rewrite (fetchLastBook_run (id item)).
    - cbn [fst snd lastBook console alerts storage].
      rewrite Rr, B2, find_filtered_out, getBooks_run. cbn [snd console].
      rewrite Rl, app_nil_r. easy.
    - unfold next_fails. rewrite Fv. exact (calm_next 1 w2 C2).
    - now rewrite Sv. }
  subst w3. rewrite HomeScreen_mount_run. fold w2'.
  destruct (F w2' eq_refl eq_refl) as (F1 & F2 & F3 & F4 & F5).
  destruct (F w2 eq_refl eq_refl) as (_ & G2 & _).
  rewrite F1, F2, F3, F4, F5. cbn [lastBook console alerts storage].
  easy.
Qed.

(** ** Saving *)

Lemma saveBook_faults (book : option Book) (t a s : string) (w : World) :
  filled t a s ->
  faults (snd (saveBook book t a s w)) = tail (tail (faults w)).
Proof.
  intros F. rewrite (saveBook_run book t a s w F), getBooks_run. reflexivity.
Qed.

Lemma saveBook_storage (book : option Book) (t a s : string) (w : World) :
  filled t a s ->
  calm 2 w ->
  storage (snd (saveBook book t a s w)) =
  <[BOOKS_KEY := JSON_stringify
                   (updated book t a s (clock w) (stored_books (storage w)))]>
    (storage w).
Proof.
  intros F C. rewrite (saveBook_run book t a s w F). cbn [snd storage].
  now rewrite (read_result_calm 1 w C), (written_after_read _ w C).
Qed.

Lemma saveBook_stored (book : option Book) (t a s : string) (w : World) :
  filled t a s ->
  calm 2 w ->
  stored_books (storage (snd (saveBook book t a s w))) =
  updated book t a s (clock w) (stored_books (storage w)).
Proof.
  intros F C. rewrite (saveBook_storage book t a s w F C).
  apply stored_books_written.
Qed.

Lemma ids_updated (book : option Book) (t a s : string) (now : Z) (books : list Book) :
  ids (updated book t a s now books) =
  match book with
  | Some _ => ids books
  | None => ids books ++ [now]
  end.
Proof.
  destruct book as [book0|].
  - unfold ids, updated. rewrite map_map. apply map_ext.
    intros b. now destruct (Z.eqb (id b) (id book0)).
  - unfold ids, updated. now rewrite map_app.
Qed.

Lemma lookup_edited (book0 : Book) (t a s : string) (now : Z)
    (books : list Book) (n : nat) (b : Book) :
  books !! n = Some b ->
  updated (Some book0) t a s now books !! n =
  Some (if Z.eqb (id b) (id book0) then mkBook (id b) t a s else b).
Proof.
  unfold updated. revert n.
  induction books as [|x books IH]; intros [|n] H; simpl in *;
    try discriminate.
  - now injection H as ->.
  - now apply IH.
Qed.

Lemma edited_absent (book0 : Book) (t a s : string) (now : Z) (books : list Book) :
  ~ In (id book0) (ids books) ->
  updated (Some book0) t a s now books = books.
Proof.
  unfold updated.
  induction books as [|b books IH]; simpl; [reflexivity|].
  intros N. destruct (Z.eqb_spec (id b) (id book0)) as [E|_].
  - exfalso. apply N. now left.
  - f_equal. apply IH. intros H. apply N. now right.
Qed.

(** C1, amended: a [saveBook] with filled fields whose read and write
    succeed returns normally and leaves under [books] the text of the
    whole updated collection.  On the edit screen (a book was passed),
    each stored record whose id is that of the book passed gets the
    title, author and status of the form and keeps its id, every other
    record is as before, and nothing is added: the collection is
    unchanged when no record has that id.  On the add screen (no book
    passed), one record is appended, whose id is the clock reading and
    whose other fields are those of the form. *)
Theorem saveBook_edits_or_adds (book : option Book) (t a s : string) (w : World) :
  filled t a s ->
  calm 2 w ->
  let old := stored_books (storage w) in
  let w' := snd (saveBook book t a s w) in
  let new := stored_books (storage w') in
  fst (saveBook book t a s w) = Ok tt
  /\ storage w' !! BOOKS_KEY = Some (JSON_stringify new)
  /\ match book with
     | Some book0 =>
         ids new = ids old
         /\ (forall n b, old !! n = Some b ->
             new !! n = Some (if Z.eqb (id b) (id book0)
                              then mkBook (id b) t a s
                              else b))
         /\ (~ In (id book0) (ids old) -> new = old)
     | None => new = old ++ [mkBook (clock w) t a s]
     end.
Proof.
  intros F C old w' new.
  assert (E : new = updated book t a s (clock w) old).
  { apply saveBook_stored; assumption. }
  split; [now rewrite (saveBook_run book t a s w F)|].
  split.
  { subst w'. rewrite (saveBook_storage book t a s w F C), E.
    apply lookup_insert_eq. }
  rewrite E. destruct book as [book0|]; [|reflexivity].
  split; [apply (ids_updated (Some book0))|].
  split; [intros n b; apply lookup_edited | apply edited_absent].
Qed.

(** C3, amended: after a [saveBook] with filled fields whose storage
    calls succeed, a [getBooks] that succeeds returns a list holding the
    record made of the title, author and status of the form and, on the
    edit screen, of the id of the book passed provided a stored record
    had that id, on the add screen, of the clock reading. *)
Theorem saveBook_then_getBooks (book : option Book) (t a s : string) (w : World) :
  filled t a s ->
  calm 3 w ->
  (forall book0, book = Some book0 ->
                 In (id book0) (ids (stored_books (storage w)))) ->
  let w' := snd (saveBook book t a s w) in
  let i := match book with Some book0 => id book0 | None => clock w end in
  exists listed,
    fst (getBooks w') = Ok listed /\ In (mkBook i t a s) listed.
Proof.
  intros F C P w' i.
  assert (C2 : calm 2 w).
  { unfold calm in *. destruct (faults w) as [|f1 [|f2 [|f3 fs]]];
      simpl in *; trivial.
    apply andb_true_iff in C as [-> C].
    apply andb_true_iff in C as [-> _]. reflexivity. }
  assert (C' : calm 1 w').
  { apply (calm_tail2 1 w); [|exact C]. now apply saveBook_faults. }
  exists (updated book t a s (clock w) (stored_books (storage w))).
  rewrite getBooks_run. cbn [fst].
  rewrite (read_result_calm 0 w' C').
  split; [f_equal; now apply saveBook_stored|].
  subst i. destruct book as [book0|]; unfold updated.
  - specialize (P book0 eq_refl). unfold ids in P.
    apply in_map_iff in P as (b & E & H).
    apply in_map_iff. exists b. split; [|exact H].
    apply Z.eqb_eq in E. now rewrite E, (proj1 (Z.eqb_eq _ _) E).
  - apply in_or_app. right. now left.
Qed.

(** ** Distinct ids *)

Lemma NoDup_snoc (x : Z) (l : list Z) :
  List.NoDup l -> ~ In x l -> List.NoDup (l ++ [x]).
Proof.
  induction 1 as [|y l N _ IH]; intros H; simpl.
  - constructor; [easy|constructor].
  - constructor.
    + intros I. apply in_app_or in I as [I|[->|[]]]; [contradiction|].
      apply H. now left.
    + apply IH. intros I. apply H. now right.
Qed.

(** One call keeps the ids distinct, whatever the storage outcomes and
    the fields. *)
Lemma save_step_distinct (c : SaveCall) (w : World) :
  List.NoDup (ids (stored_books (storage w))) ->
  (sc_book c = None -> ~ In (sc_now c) (ids (stored_books (storage w)))) ->
  List.NoDup (ids (stored_books (storage (save_step c w)))).
Proof.
  intros N Fr. unfold save_step.
  set (w0 := at_time (sc_now c) (sc_faults c) w).
  destruct (String.eqb (trim (sc_title c)) "" || String.eqb (trim (sc_author c)) ""
            || String.eqb (trim (sc_status c)) "") eqn:E.
  - unfold saveBook. rewrite E. exact N.
  - assert (F : filled (sc_title c) (sc_author c) (sc_status c)).
    { apply orb_false_iff in E as [E Es].
      apply orb_false_iff in E as [Et Ea].
      apply String.eqb_neq in Et, Ea, Es. easy. }
    rewrite (saveBook_run _ _ _ _ w0 F). cbn [snd storage].
    unfold written. rewrite getBooks_run. cbn [snd storage].
    destruct (next_fails _); [exact N|].
    rewrite stored_books_written, ids_updated.
    unfold read_result. cbn [clock storage w0 at_time].
    destruct (next_fails w0).
    + destruct (sc_book c); simpl; repeat constructor. easy.
    + destruct (sc_book c) as [book0|]; [exact N|].
      apply NoDup_snoc; [exact N | now apply Fr].
Qed.

(** C2, amended: from a collection whose ids are pairwise distinct, a
    sequence of [saveBook] calls, whatever their fields and the storage
    outcomes they meet, leaves a collection whose ids are pairwise
    distinct, provided every call on the add screen reads a clock value
    that is not the id of a record stored at that moment. *)
Theorem saveBook_keeps_ids_distinct (cs : list SaveCall) (w : World) :
  List.NoDup (ids (stored_books (storage w))) ->
  fresh_ids cs w ->
  List.NoDup (ids (stored_books (storage (run_saves cs w)))).
Proof.
  revert w. induction cs as [|c cs IH]; intros w N Fr; simpl in *.
  - exact N.
  - destruct Fr as [Fc Fr]. apply IH; [|exact Fr].
    now apply save_step_distinct.
Qed.

End Properties.

(** * Further properties of the handlers *)

Section Further.

Context {json : JSON}.

(** ** Outcomes of the two calls of a read-modify-write *)

Lemma second_fails_read (w : World) :
  next_fails (snd (getBooks w)) = second_fails w.
Proof. rewrite getBooks_run. reflexivity. Qed.

Lemma calm_second (n : nat) (w : World) :
  calm (S (S n)) w -> second_fails w = false.
Proof.
  unfold calm, second_fails.
  destruct (faults w) as [|f1 [|[|] fs]]; simpl; try reflexivity.
  rewrite andb_false_r. discriminate.
Qed.

Lemma calm_le (m n : nat) (w : World) :
  (m <= n)%nat -> calm n w -> calm m w.
Proof.
  unfold calm. revert m n. induction (faults w) as [|f fs IH]; intros m n L C.
  - now destruct m.
  - destruct m as [|m]; [reflexivity|].
    destruct n as [|n]; [lia|]. simpl in *.
    apply andb_true_iff in C as [-> C]. simpl. apply (IH m n); [lia|exact C].
Qed.

(** The stored collection after [deleteBook] and [saveBook], for every
    outcome of the read and of the write. *)
Lemma deleteBook_stored_cases (i : Z) (w : World) :
  stored_books (storage (snd (deleteBook i w))) =
  if second_fails w then stored_books (storage w)
  else List.filter (fun b => negb (Z.eqb (id b) i)) (read_result w).
Proof.
  rewrite deleteBook_run. cbn [snd storage]. unfold written.
  rewrite second_fails_read. destruct (second_fails w).
  - now rewrite getBooks_run.
  - apply stored_books_written.
Qed.

Lemma saveBook_stored_cases (book : option Book) (t a s : string) (w : World) :
  filled t a s ->
  stored_books (storage (snd (saveBook book t a s w))) =
  if second_fails w then stored_books (storage w)
  else updated book t a s (clock w) (read_result w).
Proof.
  intros F. rewrite (saveBook_run book t a s w F). cbn [snd storage].
  unfold written. rewrite second_fails_read. destruct (second_fails w).
  - now rewrite getBooks_run.
  - apply stored_books_written.
Qed.

(** ** Reading back *)

(** X1: what a [saveBooks] that succeeds wrote is what the next
    [getBooks] that succeeds returns, whatever was stored before, and that
    read logs nothing. *)
Theorem saveBooks_then_getBooks (books : list Book) (w : World) :
  calm 2 w ->
  fst (getBooks (snd (saveBooks books w))) = Ok books
  /\ console (snd (getBooks (snd (saveBooks books w)))) = console w.
Proof.
  intros C.
  assert (N1 : next_fails w = false) by exact (calm_next 1 w C).
  assert (C' : calm 1 (snd (saveBooks books w))).
  { apply (calm_tail 1 w); [now rewrite saveBooks_run | exact C]. }
  assert (S' : storage (snd (saveBooks books w)) =
               <[BOOKS_KEY := JSON_stringify books]> (storage w)).
  { rewrite saveBooks_run. cbn [snd storage]. unfold written. now rewrite N1. }
  rewrite getBooks_run. cbn [fst snd console]. split.
  - rewrite (read_result_calm 0 _ C'), S'. f_equal. apply stored_books_written.
  - rewrite (read_log_written books); [| exact (calm_next 0 _ C') |].
    + rewrite saveBooks_run. cbn [snd console]. unfold write_log.
      now rewrite N1, !app_nil_r.
    + rewrite S'. apply lookup_insert_eq.
Qed.

(** The calls and the state after [fetchLastBook], case by case. *)
Lemma fetchLastBook_cases (w : World) :
  storage (snd (fetchLastBook w)) = storage w
  /\ (calls (snd (fetchLastBook w)) = calls w ++ [GetItem LAST_BOOK_KEY]
      \/ calls (snd (fetchLastBook w)) =
         calls w ++ [GetItem LAST_BOOK_KEY; GetItem BOOKS_KEY])
  /\ alerts (snd (fetchLastBook w)) = alerts w
  /\ navigation (snd (fetchLastBook w)) = navigation w.
Proof.
  destruct (fetchLastBook w) as [r w'] eqn:E. cbn [snd].
  unfold fetchLastBook, try_catch, bind at 1, AsyncStorage_getItem in E.
  destruct (faults w) as [|[|] fs];
    [|injection E as <- <-; cbn; auto 10|];
    (destruct (storage w !! LAST_BOOK_KEY) as [p|];
     [|injection E as <- <-; cbn; auto 10; fail];
     destruct (truthy p); [|injection E as <- <-; cbn; auto 10; fail];
     unfold bind in E; rewrite getBooks_run in E;
     destruct (List.find _ _); injection E as <- <-; cbn;
     rewrite <- app_assoc; auto 10).
Qed.

(** X2: reading never writes.  For every outcome of the storage calls,
    [getBooks], [fetchBooks], [fetchLastBook] and the mounting of the home
    screen leave the storage content as it was; [fetchLastBook] issues one
    read of [lastBook], followed or not by one read of [books], and no
    other call, raises no dialog and does not navigate. *)
Theorem reads_never_write (w : World) :
  storage (snd (getBooks w)) = storage w
  /\ storage (snd (fetchBooks w)) = storage w
  /\ storage (snd (fetchLastBook w)) = storage w
  /\ storage (snd (HomeScreen_mount w)) = storage w
  /\ (calls (snd (fetchLastBook w)) = calls w ++ [GetItem LAST_BOOK_KEY]
      \/ calls (snd (fetchLastBook w)) =
         calls w ++ [GetItem LAST_BOOK_KEY; GetItem BOOKS_KEY])
  /\ alerts (snd (fetchLastBook w)) = alerts w
  /\ navigation (snd (fetchLastBook w)) = navigation w.
Proof.
  split; [now rewrite getBooks_run|].
  split; [unfold fetchBooks, bind; now rewrite getBooks_run|].
  split; [apply fetchLastBook_cases|].
  split; [|apply fetchLastBook_cases].
  rewrite HomeScreen_mount_run.
  exact (proj1 (fetchLastBook_cases
                  (mkWorld (storage w) (faults w) (clock w) (calls w) (console w)
                           (alerts w) (navigation w) None))).
Qed.

(** ** A read or a write that rejects inside a read-modify-write *)

Lemma deleteBook_console (i : Z) (w : World) :
  console (snd (deleteBook i w)) =
  console w ++ read_log w ++
  (if second_fails w then [(Some "Error saving books:", StorageError)] else []).
Proof.
  rewrite deleteBook_run. cbn [snd console]. unfold write_log.
  rewrite second_fails_read, getBooks_run. cbn [snd console].
  now rewrite <- app_assoc.
Qed.

Lemma saveBook_console (book : option Book) (t a s : string) (w : World) :
  filled t a s ->
  console (snd (saveBook book t a s w)) =
  console w ++ read_log w ++
  (if second_fails w then [(Some "Error saving books:", StorageError)] else []).
Proof.
  intros F. rewrite (saveBook_run book t a s w F). cbn [snd console].
  unfold write_log. rewrite second_fails_read, getBooks_run. cbn [snd console].
  now rewrite <- app_assoc.
Qed.

(** X3: when the read of [deleteBook] rejects and its write succeeds,
    the empty collection is written over the stored one, whatever the id
    and whatever was stored; one line is logged, for the read, and the
    screen goes back as after a deletion that worked. *)
Theorem deleteBook_rejected_read_empties (i : Z) (w : World) :
  next_fails w = true ->
  second_fails w = false ->
  stored_books (storage (snd (deleteBook i w))) = []
  /\ storage (snd (deleteBook i w)) !! BOOKS_KEY = Some (JSON_stringify [])
  /\ console (snd (deleteBook i w)) =
     console w ++ [(Some "Error getting books:", StorageError)]
  /\ navigation (snd (deleteBook i w)) = navigation w ++ [GoBack].
Proof.
  intros N1 N2.
  split; [rewrite deleteBook_stored_cases, N2; unfold read_result; now rewrite N1|].
  split.
  { rewrite deleteBook_run. cbn [snd storage]. unfold written, read_result.
    rewrite second_fails_read, N2, N1. apply lookup_insert_eq. }
  split.
  { rewrite deleteBook_console, N2. unfold read_log. now rewrite N1, app_nil_r. }
  now rewrite deleteBook_run.
Qed.

(** X4: when the read of [saveBook] rejects and its write succeeds, the
    stored collection is replaced: by the new record alone on the add
    screen, by the empty collection on the edit screen; one line is
    logged, for the read, and the screen goes back. *)
Theorem saveBook_rejected_read_replaces
    (book : option Book) (t a s : string) (w : World) :
  filled t a s ->
  next_fails w = true ->
  second_fails w = false ->
  stored_books (storage (snd (saveBook book t a s w))) =
    match book with
    | Some _ => []
    | None => [mkBook (clock w) t a s]
    end
  /\ console (snd (saveBook book t a s w)) =
     console w ++ [(Some "Error getting books:", StorageError)]
  /\ navigation (snd (saveBook book t a s w)) = navigation w ++ [GoBack].
Proof.
  intros F N1 N2.
  split.
  { rewrite (saveBook_stored_cases book t a s w F), N2. unfold read_result.
    rewrite N1. now destruct book. }
  split.
  { rewrite (saveBook_console book t a s w F), N2. unfold read_log.
    now rewrite N1, app_nil_r. }
  now rewrite (saveBook_run book t a s w F).
Qed.

(** X5: when the write of [deleteBook] or of [saveBook] rejects, the
    storage content is exactly as it was, the last line logged is the one
    for the write, no dialog is raised and the screen goes back all the
    same. *)
Theorem rejected_write_keeps_storage
    (book : option Book) (t a s : string) (i : Z) (w : World) :
  second_fails w = true ->
  (storage (snd (deleteBook i w)) = storage w
   /\ (exists l, console (snd (deleteBook i w)) =
                 console w ++ l ++ [(Some "Error saving books:", StorageError)])
   /\ alerts (snd (deleteBook i w)) = alerts w
   /\ navigation (snd (deleteBook i w)) = navigation w ++ [GoBack])
  /\ (filled t a s ->
      storage (snd (saveBook book t a s w)) = storage w
      /\ (exists l, console (snd (saveBook book t a s w)) =
                    console w ++ l ++ [(Some "Error saving books:", StorageError)])
      /\ alerts (snd (saveBook book t a s w)) = alerts w
      /\ navigation (snd (saveBook book t a s w)) = navigation w ++ [GoBack]).
Proof.
  intros N2. split.
  - split.
    { rewrite deleteBook_run. cbn [snd storage]. unfold written.
      rewrite second_fails_read, N2. now rewrite getBooks_run. }
    split; [exists (read_log w); now rewrite deleteBook_console, N2|].
    now rewrite deleteBook_run.
  - intros F. split.
    { rewrite (saveBook_run book t a s w F). cbn [snd storage]. unfold written.
      rewrite second_fails_read, N2. now rewrite getBooks_run. }
    split; [exists (read_log w); now rewrite (saveBook_console book t a s w F), N2|].
    now rewrite (saveBook_run book t a s w F).
Qed.

(** ** How the handlers compose *)

Lemma deleteBook_stored (i : Z) (w : World) :
  calm 2 w ->
  stored_books (storage (snd (deleteBook i w))) =
  List.filter (fun b => negb (Z.eqb (id b) i)) (stored_books (storage w)).
Proof.
  intros C. rewrite (deleteBook_storage i w C). apply stored_books_written.
Qed.

Lemma calm_after_deleteBook (n : nat) (i : Z) (w : World) :
  calm (S (S n)) w -> calm n (snd (deleteBook i w)).
Proof. apply calm_tail2, deleteBook_faults. Qed.

Lemma calm_after_saveBook (n : nat) (book : option Book) (t a s : string) (w : World) :
  filled t a s -> calm (S (S n)) w -> calm n (snd (saveBook book t a s w)).
Proof. intros F. apply calm_tail2, saveBook_faults, F. Qed.

Lemma clock_after_saveBook (book : option Book) (t a s : string) (w : World) :
  filled t a s -> clock (snd (saveBook book t a s w)) = clock w.
Proof. intros F. now rewrite (saveBook_run book t a s w F). Qed.

Lemma filter_filter_same (i : Z) (books : list Book) :
  List.filter (fun b => negb (Z.eqb (id b) i))
              (List.filter (fun b => negb (Z.eqb (id b) i)) books) =
  List.filter (fun b => negb (Z.eqb (id b) i)) books.
Proof.
  induction books as [|b books IH]; simpl; [reflexivity|].
  destruct (negb (Z.eqb (id b) i)) eqn:E; simpl; [|exact IH].
  now rewrite E, IH.
Qed.

Lemma filtered_ids (i : Z) (books : list Book) :
  ~ In i (ids (List.filter (fun b => negb (Z.eqb (id b) i)) books)).
Proof.
  unfold ids. intros H. apply in_map_iff in H as (b & E & H).
  apply filter_In in H as [_ H]. apply negb_true_iff, Z.eqb_neq in H.
  contradiction.
Qed.

Lemma edited_twice (book0 : Book) (t a s : string) (m n : Z) (books : list Book) :
  updated (Some book0) t a s m (updated (Some book0) t a s n books) =
  updated (Some book0) t a s n books.
Proof.
  unfold updated. rewrite map_map. apply map_ext. intros b.
  destruct (Z.eqb (id b) (id book0)) eqn:E; cbn [id]; now rewrite E.
Qed.

(** X6: deleting the same id a second time changes nothing: with
    storage calls that succeed, the collection after two deletions of an
    id is the collection after one. *)
Theorem deleteBook_twice (i : Z) (w : World) :
  calm 4 w ->
  stored_books (storage (snd (deleteBook i (snd (deleteBook i w))))) =
  stored_books (storage (snd (deleteBook i w))).
Proof.
  intros C.
  rewrite (deleteBook_stored i (snd (deleteBook i w)));
    [|now apply calm_after_deleteBook].
  rewrite (deleteBook_stored i w); [|exact (calm_le 2 4 w ltac:(lia) C)].
  apply filter_filter_same.
Qed.

(** X7: saving the same edit a second time changes nothing: with
    filled fields and storage calls that succeed, the collection after two
    saves of the edit screen with the same book and the same fields is the
    collection after one. *)
Theorem saveBook_edit_twice (book0 : Book) (t a s : string) (w : World) :
  filled t a s ->
  calm 4 w ->
  stored_books (storage (snd (saveBook (Some book0) t a s
                                (snd (saveBook (Some book0) t a s w))))) =
  stored_books (storage (snd (saveBook (Some book0) t a s w))).
Proof.
  intros F C.
  rewrite (saveBook_stored (Some book0) t a s _ F);
    [|now apply calm_after_saveBook].
  rewrite (saveBook_stored (Some book0) t a s w F);
    [|exact (calm_le 2 4 w ltac:(lia) C)].
  apply edited_twice.
Qed.

(** X8: an add is undone by the deletion of the id it gave, provided
    that id was not stored before: with filled fields, storage calls that
    succeed and a clock reading that is the id of no stored record, adding
    a book and then deleting the id equal to that reading leaves the
    collection as it was before the add. *)
Theorem add_then_delete (t a s : string) (w : World) :
  filled t a s ->
  calm 4 w ->
  ~ In (clock w) (ids (stored_books (storage w))) ->
  stored_books (storage (snd (deleteBook (clock w)
                                (snd (saveBook None t a s w))))) =
  stored_books (storage w).
Proof.
  intros F C N.
  rewrite (deleteBook_stored (clock w) _);
    [|now apply calm_after_saveBook].
  rewrite (saveBook_stored None t a s w F);
    [|exact (calm_le 2 4 w ltac:(lia) C)].
  unfold updated. rewrite List.filter_app. simpl.
  rewrite Z.eqb_refl. simpl. rewrite app_nil_r. now apply filter_absent.
Qed.

(** X9: an edit saved after its book was deleted is lost without a
    word: with filled fields and storage calls that succeed, after
    [deleteBook] of the id of a book, [saveBook] on the edit screen of that
    book returns normally, logs nothing, goes back, and leaves the
    collection as the deletion left it. *)
Theorem delete_then_edit (book0 : Book) (t a s : string) (w : World) :
  filled t a s ->
  calm 4 w ->
  let w1 := snd (deleteBook (id book0) w) in
  fst (saveBook (Some book0) t a s w1) = Ok tt
  /\ stored_books (storage (snd (saveBook (Some book0) t a s w1))) =
     stored_books (storage w1)
  /\ console (snd (saveBook (Some book0) t a s w1)) = console w1
  /\ alerts (snd (saveBook (Some book0) t a s w1)) = alerts w1
  /\ navigation (snd (saveBook (Some book0) t a s w1)) = navigation w1 ++ [GoBack].
Proof.
  intros F C w1.
  assert (C2 : calm 2 w) by exact (calm_le 2 4 w ltac:(lia) C).
  assert (C1 : calm 2 w1) by now apply calm_after_deleteBook.
  assert (S1 : stored_books (storage w1) =
               List.filter (fun b => negb (Z.eqb (id b) (id book0)))
                           (stored_books (storage w)))
    by now apply deleteBook_stored.
  split; [now rewrite (saveBook_run (Some book0) t a s w1 F)|].
  split.
  { rewrite (saveBook_stored (Some book0) t a s w1 F C1).
    apply edited_absent. rewrite S1. apply filtered_ids. }
  split.
  { rewrite (saveBook_console (Some book0) t a s w1 F).
    rewrite (calm_second 0 w1 C1).
    rewrite (read_log_written
               (List.filter (fun b => negb (Z.eqb (id b) (id book0)))
                            (stored_books (storage w))));
      [now rewrite !app_nil_r | exact (calm_next 1 w1 C1) |].
    subst w1. rewrite (deleteBook_storage (id book0) w C2).
    apply lookup_insert_eq. }
  now rewrite (saveBook_run (Some book0) t a s w1 F).
Qed.

(** ** The last viewed book, from the press to the home screen *)

Lemma renderItem_onPress_storage (item : Book) (w : World) :
  next_fails w = false ->
  storage (snd (renderItem_onPress item w)) =
  <[LAST_BOOK_KEY := JS_String (id item)]> (storage w).
Proof.
  intros N. rewrite renderItem_onPress_run. cbn [snd storage]. now rewrite N.
Qed.

Lemma calm_after_press (n : nat) (item : Book) (w : World) :
  calm (S n) w -> calm n (snd (renderItem_onPress item w)).
Proof. apply calm_tail. now rewrite renderItem_onPress_run. Qed.

Lemma stored_books_pointer (p : string) (st : gmap string string) :
  stored_books (<[LAST_BOOK_KEY := p]> st) = stored_books st.
Proof. unfold stored_books. now rewrite lookup_insert_ne. Qed.

Lemma HomeScreen_mount_lastBook (i : Z) (w : World) :
  calm 2 w ->
  storage w !! LAST_BOOK_KEY = Some (JS_String i) ->
  lastBook (snd (HomeScreen_mount w)) =
  List.find (fun b => Z.eqb (id b) i) (stored_books (storage w)).
Proof.
  intros C P. rewrite HomeScreen_mount_run.
  rewrite (fetchLastBook_run i); [|exact (calm_next 1 w C)|exact P].
  cbn [snd lastBook storage]. unfold read_result, next_fails. cbn [faults].
  pose proof (calm_second 0 w C) as N. unfold second_fails in N.
  rewrite N. cbn [storage]. now destruct (List.find _ _).
Qed.

Lemma find_unique (item : Book) (books : list Book) :
  In item books ->
  List.NoDup (ids books) ->
  List.find (fun b => Z.eqb (id b) (id item)) books = Some item.
Proof.
  induction books as [|b books IH]; simpl; [easy|].
  intros I N. inversion N as [|x l Nx Nl]; subst.
  destruct I as [->|I]; [now rewrite Z.eqb_refl|].
  destruct (Z.eqb_spec (id b) (id item)) as [E|_]; [|now apply IH].
  exfalso. apply Nx. rewrite E. unfold ids. now apply in_map.
Qed.

Lemma find_updated (book0 : Book) (t a s : string) (n : Z) (books : list Book) :
  In (id book0) (ids books) ->
  List.find (fun b => Z.eqb (id b) (id book0)) (updated (Some book0) t a s n books)
  = Some (mkBook (id book0) t a s).
Proof.
  unfold updated. induction books as [|b books IH]; simpl; [easy|].
  intros I. destruct (Z.eqb_spec (id b) (id book0)) as [E|N].
  - cbn [id]. rewrite E, Z.eqb_refl. reflexivity.
  - destruct (Z.eqb_spec (id b) (id book0)) as [E|_]; [contradiction|].
    apply IH. destruct I as [I|I]; [contradiction|exact I].
Qed.

(** X10: with storage calls that succeed, after an item of the list was
    pressed, mounting the home screen sets the state [lastBook] to the
    first stored record that has the id of the item, the collection being
    as it was; when the item is a stored record and the stored ids are
    pairwise distinct, that is the item itself. *)
Theorem press_then_mount (item : Book) (w : World) :
  calm 3 w ->
  let w1 := snd (renderItem_onPress item w) in
  stored_books (storage w1) = stored_books (storage w)
  /\ lastBook (snd (HomeScreen_mount w1)) =
     List.find (fun b => Z.eqb (id b) (id item)) (stored_books (storage w))
  /\ (In item (stored_books (storage w)) ->
      List.NoDup (ids (stored_books (storage w))) ->
      lastBook (snd (HomeScreen_mount w1)) = Some item).
Proof.
  intros C w1.
  assert (S1 : storage w1 = <[LAST_BOOK_KEY := JS_String (id item)]> (storage w)).
  { apply renderItem_onPress_storage, (calm_next 2 w C). }
  assert (B1 : stored_books (storage w1) = stored_books (storage w)).
  { rewrite S1. apply stored_books_pointer. }
  assert (M : lastBook (snd (HomeScreen_mount w1)) =
              List.find (fun b => Z.eqb (id b) (id item))
                        (stored_books (storage w))).
  { rewrite <- B1. apply HomeScreen_mount_lastBook.
    - now apply calm_after_press.
    - rewrite S1. apply lookup_insert_eq. }
  split; [exact B1|]. split; [exact M|].
  intros I N. rewrite M. now apply find_unique.
Qed.

(** X11: the details screen opens only when the pointer was stored.  A
    press whose write succeeds stores the text of the id under [lastBook]
    and navigates to the details of the item; a press whose write rejects
    returns normally, leaves the storage content as it was, logs the error
    and does not navigate. *)
Theorem press_navigates_iff_stored (item : Book) (w : World) :
  fst (renderItem_onPress item w) = Ok tt
  /\ (next_fails w = false ->
      storage (snd (renderItem_onPress item w)) !! LAST_BOOK_KEY =
        Some (JS_String (id item))
      /\ navigation (snd (renderItem_onPress item w)) =
         navigation w ++ [Navigate "BookDetails" (Some item)]
      /\ console (snd (renderItem_onPress item w)) = console w)
  /\ (next_fails w = true ->
      storage (snd (renderItem_onPress item w)) = storage w
      /\ navigation (snd (renderItem_onPress item w)) = navigation w
      /\ console (snd (renderItem_onPress item w)) =
         console w ++ [(None, StorageError)]).
Proof.
  rewrite renderItem_onPress_run. cbn [fst snd storage navigation console].
  split; [reflexivity|].
  split; intros N; rewrite N; rewrite ?app_nil_r.
  - split; [apply lookup_insert_eq | easy].
  - easy.
Qed.

(** X12: a read that rejects while the home screen resolves the last
    book leaves the state [lastBook] as it was and logs one line.  When
    the read of [lastBook] rejects, the collection is not read at all;
    when that read succeeds and the read of [books] rejects, the book is
    not found even if it is stored. *)
Theorem fetchLastBook_rejected_read (w : World) :
  (next_fails w = true ->
   lastBook (snd (fetchLastBook w)) = lastBook w
   /\ calls (snd (fetchLastBook w)) = calls w ++ [GetItem LAST_BOOK_KEY]
   /\ console (snd (fetchLastBook w)) = console w ++ [(None, StorageError)])
  /\ (forall i, next_fails w = false -> second_fails w = true ->
      storage w !! LAST_BOOK_KEY = Some (JS_String i) ->
      lastBook (snd (fetchLastBook w)) = lastBook w
      /\ calls (snd (fetchLastBook w)) =
         calls w ++ [GetItem LAST_BOOK_KEY; GetItem BOOKS_KEY]
      /\ console (snd (fetchLastBook w)) =
         console w ++ [(Some "Error getting books:", StorageError)]).
Proof.
  split.
  - intros N. unfold fetchLastBook, try_catch, bind, AsyncStorage_getItem,
      console_error.
    unfold next_fails in N.
    destruct (faults w) as [|[|] fs]; try discriminate. easy.
  - intros i N1 N2 P. rewrite (fetchLastBook_run i w N1 P).
    cbn [snd lastBook calls console]. rewrite getBooks_run.
    cbn [snd calls console].
    unfold read_result, read_log, next_fails. cbn [faults].
    unfold second_fails in N2. rewrite N2. cbn [List.find].
    now rewrite <- app_assoc.
Qed.

(** X13: an edit shows on the home screen.  With filled fields and
    storage calls that succeed, after an item was pressed and then saved
    from the edit screen, mounting the home screen sets the state
    [lastBook] to the record with the id of the item and the title, author
    and status of the form, provided a stored record had that id. *)
Theorem edit_shows_on_home (item : Book) (t a s : string) (w : World) :
  filled t a s ->
  calm 5 w ->
  In (id item) (ids (stored_books (storage w))) ->
  let w1 := snd (renderItem_onPress item w) in
  let w2 := snd (saveBook (Some item) t a s w1) in
  lastBook (snd (HomeScreen_mount w2)) = Some (mkBook (id item) t a s).
Proof.
  intros F C I w1 w2.
  assert (S1 : storage w1 = <[LAST_BOOK_KEY := JS_String (id item)]> (storage w)).
  { apply renderItem_onPress_storage, (calm_next 4 w C). }
  assert (C1 : calm 4 w1) by now apply calm_after_press.
  assert (C1' : calm 2 w1) by exact (calm_le 2 4 w1 ltac:(lia) C1).
  assert (S2 : storage w2 =
               <[BOOKS_KEY := JSON_stringify
                    (updated (Some item) t a s (clock w1)
                             (stored_books (storage w1)))]> (storage w1)).
  { now apply saveBook_storage. }
  assert (C2 : calm 2 w2) by now apply calm_after_saveBook.
  rewrite (HomeScreen_mount_lastBook (id item) w2 C2).
  - rewrite S2, stored_books_written, S1, stored_books_pointer.
    now apply find_updated.
  - rewrite S2, lookup_insert_ne by discriminate.
    rewrite S1. apply lookup_insert_eq.
Qed.

(** X14: deleting does not refresh the home screen.  With filled
    fields and storage calls that succeed, when the state [lastBook] holds
    a book and that book is deleted, the state still holds it although no
    stored record has its id; "View Details" then opens the details of the
    deleted book, and a save from its edit screen leaves the collection as
    the deletion left it. *)
Theorem home_keeps_deleted_book (item : Book) (t a s : string) (w : World) :
  filled t a s ->
  calm 4 w ->
  lastBook w = Some item ->
  let w1 := snd (deleteBook (id item) w) in
  let w2 := snd (HomeScreen_viewDetails w1) in
  lastBook w1 = Some item
  /\ ~ In (id item) (ids (stored_books (storage w1)))
  /\ navigation w2 =
     navigation w ++ [GoBack; Navigate "BookDetails" (Some item)]
  /\ stored_books (storage (snd (saveBook (Some item) t a s w2))) =
     stored_books (storage w1).
Proof.
  intros F C L w1 w2.
  assert (C0 : calm 2 w) by exact (calm_le 2 4 w ltac:(lia) C).
  assert (L1 : lastBook w1 = Some item).
  { subst w1. now rewrite deleteBook_run. }
  assert (B1 : stored_books (storage w1) =
               List.filter (fun b => negb (Z.eqb (id b) (id item)))
                           (stored_books (storage w)))
    by now apply deleteBook_stored.
  assert (E2 : w2 = mkWorld (storage w1) (faults w1) (clock w1) (calls w1)
                      (console w1) (alerts w1)
                      (navigation w1 ++ [Navigate "BookDetails" (Some item)])
                      (lastBook w1)).
  { subst w2. unfold HomeScreen_viewDetails. rewrite L1.
    unfold navigation_navigate. cbn [snd]. now rewrite L1. }
  assert (C2 : calm 2 w2).
  { apply (calm_tail2 2 w); [|exact C]. rewrite E2. cbn [faults].
    apply deleteBook_faults. }
  split; [exact L1|].
  split; [rewrite B1; apply filtered_ids|].
  split.
  { rewrite E2. cbn [navigation]. subst w1. rewrite deleteBook_run.
    cbn [snd navigation]. now rewrite <- app_assoc. }
  rewrite (saveBook_stored (Some item) t a s w2 F C2).
  rewrite E2. cbn [storage]. apply edited_absent.
  rewrite B1. apply filtered_ids.
Qed.

(** ** The list screen *)

(** X15: the list screen shows "No books available." exactly when the
    read of the collection rejected or the stored collection is empty:
    [fetchBooks] always returns normally, and the list it gives to the
    screen is empty in these two cases only. *)
Theorem no_books_message_shown (w : World) :
  exists books,
    fst (fetchBooks w) = Ok books
    /\ (no_books_message books = true <->
        next_fails w = true \/ stored_books (storage w) = []).
Proof.
  exists (read_result w). split.
  - unfold fetchBooks, bind. now rewrite getBooks_run.
  - unfold no_books_message, read_result.
    destruct (next_fails w); [simpl; intuition|].
    destruct (stored_books (storage w)); simpl; intuition discriminate.
Qed.

Lemma NoDup_map_JS_String (l : list Z) :
  List.NoDup (List.map JS_String l) <-> List.NoDup l.
Proof.
  split.
  - apply NoDup_map_inv.
  - induction 1 as [|x l N _ IH]; simpl; constructor; [|exact IH].
    intros I. apply in_map_iff in I as (y & E & I).
    apply JS_String_inj in E. now subst y.
Qed.

(** X16: the keys of the rows of the list are the texts of the ids:
    two books get the same key exactly when they have the same id, so the
    keys of a list of books are pairwise distinct exactly when its ids
    are. *)
Theorem keyExtractor_distinct (a b : Book) (books : list Book) :
  (keyExtractor a = keyExtractor b <-> id a = id b)
  /\ (List.NoDup (List.map keyExtractor books) <-> List.NoDup (ids books)).
Proof.
  split.
  - unfold keyExtractor. split; [apply JS_String_inj | now intros ->].
  - unfold ids. rewrite <- (NoDup_map_JS_String (List.map id books)).
    now rewrite map_map.
Qed.

(** ** The form *)

Lemma edited_same (book0 : Book) (n : Z) (books : list Book) :
  (forall b, In b books -> id b = id book0 -> b = book0) ->
  updated (Some book0) (title book0) (author book0) (status book0) n books = books.
Proof.
  unfold updated. induction books as [|b books IH]; simpl; [reflexivity|].
  intros U. rewrite IH by (intros x I; apply U; now right). f_equal.
  destruct (Z.eqb_spec (id b) (id book0)) as [E|_]; [|reflexivity].
  rewrite (U b (or_introl eq_refl) E). now destruct book0.
Qed.

(** X17: saving a form that was not touched.  On the add screen the
    three inputs start empty, so the save is refused: the dialog is
    raised and no storage call is issued.  On the edit screen they start
    with the fields of the book passed, so, with fields that are not blank
    and storage calls that succeed, the save leaves the collection as it
    was, provided the stored records with the id of the book passed are
    equal to it. *)
Theorem untouched_form_saved (book0 : Book) (w : World) :
  (saveBook None (initial_title None) (initial_author None)
            (initial_status None) w =
   (Ok tt,
    mkWorld (storage w) (faults w) (clock w) (calls w) (console w)
            (alerts w ++ ["Please fill out all fields."])
            (navigation w) (lastBook w)))
  /\ (filled (title book0) (author book0) (status book0) ->
      calm 2 w ->
      (forall b, In b (stored_books (storage w)) -> id b = id book0 -> b = book0) ->
      stored_books (storage (snd (saveBook (Some book0)
                                    (initial_title (Some book0))
                                    (initial_author (Some book0))
                                    (initial_status (Some book0)) w))) =
      stored_books (storage w)).
Proof.
  split; [reflexivity|].
  intros F C U. cbn [initial_title initial_author initial_status].
  rewrite (saveBook_stored (Some book0) _ _ _ w F C).
  now apply edited_same.
Qed.

(** ** The size of the collection *)

Lemma filter_length_count (i : Z) (books : list Book) :
  (length (List.filter (fun b => negb (Z.eqb (id b) i)) books)
   + count_occ Z.eq_dec (ids books) i = length books)%nat.
Proof.
  induction books as [|b books IH]; simpl; [reflexivity|].
  destruct (Z.eq_dec (id b) i) as [E|N].
  - apply Z.eqb_eq in E. rewrite E. simpl. lia.
  - apply Z.eqb_neq in N. rewrite N. simpl. lia.
Qed.

(** X18: with filled fields and storage calls that succeed, a save
    from the add screen makes the collection one record longer, a save
    from the edit screen keeps its length, and a deletion makes it shorter
    by the number of stored records that have the id. *)
Theorem collection_length (book0 : Book) (t a s : string) (i : Z) (w : World) :
  filled t a s ->
  calm 2 w ->
  length (stored_books (storage (snd (saveBook None t a s w)))) =
    S (length (stored_books (storage w)))
  /\ length (stored_books (storage (snd (saveBook (Some book0) t a s w)))) =
     length (stored_books (storage w))
  /\ (length (stored_books (storage (snd (deleteBook i w))))
      + count_occ Z.eq_dec (ids (stored_books (storage w))) i
      = length (stored_books (storage w)))%nat.
Proof.
  intros F C.
  rewrite !(saveBook_stored _ t a s w F C), (deleteBook_stored i w C).
  unfold updated. rewrite length_app, length_map. simpl.
  split; [lia|]. split; [reflexivity|]. apply filter_length_count.
Qed.

(** ** What an edit and a deletion never do *)

Lemma saveBook_blank_stored (book : option Book) (t a s : string) (w : World) :
  ~ filled t a s ->
  storage (snd (saveBook book t a s w)) = storage w.
Proof.
  intros B. unfold saveBook.
  destruct (String.eqb (trim t) "" || String.eqb (trim a) ""
            || String.eqb (trim s) "") eqn:E; [reflexivity|].
  exfalso. apply B.
  apply orb_false_iff in E as [E Es]. apply orb_false_iff in E as [Et Ea].
  apply String.eqb_neq in Et, Ea, Es. easy.
Qed.

Lemma filled_dec (t a s : string) : filled t a s \/ ~ filled t a s.
Proof.
  unfold filled.
  destruct (string_dec (trim t) ""), (string_dec (trim a) ""),
    (string_dec (trim s) ""); tauto.
Qed.

(** X19: for every outcome of the storage calls and whatever the
    fields, a deletion and a save from the edit screen never add a record:
    the collection after a deletion is a part of the one before, in the
    same order, and the ids after a save from the edit screen are ids that
    were stored before, not more of them. *)
Theorem edit_and_delete_never_add
    (book0 : Book) (t a s : string) (i : Z) (w : World) :
  sublist (stored_books (storage (snd (deleteBook i w))))
          (stored_books (storage w))
  /\ (forall x, In x (ids (stored_books (storage
                   (snd (saveBook (Some book0) t a s w))))) ->
                In x (ids (stored_books (storage w))))
  /\ (length (stored_books (storage (snd (saveBook (Some book0) t a s w))))
      <= length (stored_books (storage w)))%nat.
Proof.
  split.
  { rewrite deleteBook_stored_cases. destruct (second_fails w); [reflexivity|].
    unfold read_result. destruct (next_fails w); [apply sublist_nil_l|].
    apply filter_sublist. }
  destruct (filled_dec t a s) as [F|B].
  - rewrite (saveBook_stored_cases (Some book0) t a s w F).
    destruct (second_fails w); [split; [easy|lia]|].
    unfold read_result. destruct (next_fails w).
    + split; [intros x []|simpl; lia].
    + split.
      * intros x. now rewrite (ids_updated (Some book0)).
      * unfold updated. rewrite length_map. lia.
  - rewrite (saveBook_blank_stored (Some book0) t a s w B). split; [easy|lia].
Qed.

(** ** The stored texts *)

Lemma well_stored_written (books : list Book) (st : gmap string string) :
  well_stored st -> well_stored (<[BOOKS_KEY := JSON_stringify books]> st).
Proof.
  intros [_ P]. split.
  - right. exists books. apply lookup_insert_eq.
  - now rewrite lookup_insert_ne.
Qed.

Lemma well_stored_pointer (i : Z) (st : gmap string string) :
  well_stored st -> well_stored (<[LAST_BOOK_KEY := JS_String i]> st).
Proof.
  intros [B _]. split.
  - now rewrite lookup_insert_ne.
  - right. exists i. apply lookup_insert_eq.
Qed.

(** X20: the code only stores texts it can read back.  The storage
    content being well formed (the entry [books] absent or a text
    [JSON.stringify] gave, the entry [lastBook] absent or the text of an
    id) is kept by every handler, for every outcome of the storage calls
    and whatever the fields; and on such a content a read of the
    collection that does not reject logs nothing: no stored text fails to
    parse. *)
Theorem well_stored_kept
    (book : option Book) (t a s : string) (i : Z) (item : Book) (w : World) :
  well_stored (storage w) ->
  well_stored (storage (snd (saveBook book t a s w)))
  /\ well_stored (storage (snd (deleteBook i w)))
  /\ well_stored (storage (snd (renderItem_onPress item w)))
  /\ well_stored (storage (snd (HomeScreen_mount w)))
  /\ (next_fails w = false -> console (snd (getBooks w)) = console w).
Proof.
  intros W.
  assert (Wr : forall l, well_stored (written l (snd (getBooks w)))).
  { intros l. unfold written. rewrite getBooks_run. cbn [snd storage].
    destruct (next_fails _); [exact W | now apply well_stored_written]. }
  split.
  { destruct (filled_dec t a s) as [F|B].
    - rewrite (saveBook_run book t a s w F). cbn [snd storage]. apply Wr.
    - now rewrite (saveBook_blank_stored book t a s w B). }
  split; [rewrite deleteBook_run; cbn [snd storage]; apply Wr|].
  split.
  { rewrite renderItem_onPress_run. cbn [snd storage].
    destruct (next_fails w); [exact W | now apply well_stored_pointer]. }
  split.
  { rewrite HomeScreen_mount_run.
    now rewrite (proj1 (fetchLastBook_cases
                  (mkWorld (storage w) (faults w) (clock w) (calls w) (console w)
                           (alerts w) (navigation w) None))). }
  intros N. rewrite getBooks_run. cbn [snd console]. unfold read_log.
  rewrite N. destruct W as [[->|[books ->]] _].
  - apply app_nil_r.
  - rewrite JSON_stringify_truthy, JSON_parse_stringify. apply app_nil_r.
Qed.

(** ** A clock that goes forward *)

Lemma save_step_ids_in (c : SaveCall) (w : World) (x : Z) :
  In x (ids (stored_books (storage (save_step c w)))) ->
  In x (ids (stored_books (storage w))) \/ (sc_book c = None /\ x = sc_now c).
Proof.
  unfold save_step.
  set (w0 := at_time (sc_now c) (sc_faults c) w).
  destruct (filled_dec (sc_title c) (sc_author c) (sc_status c)) as [F|B].
  - rewrite (saveBook_stored_cases _ _ _ _ w0 F).
    destruct (second_fails w0); [now left|].
    rewrite ids_updated. unfold read_result.
    destruct (next_fails w0), (sc_book c); simpl; intros I.
    + destruct I.
    + destruct I as [<-|[]]. now right.
    + now left.
    + apply in_app_or in I as [I|[<-|[]]]; [now left | now right].
  - rewrite (saveBook_blank_stored _ _ _ _ w0 B). now left.
Qed.

Lemma increasing_clock_invariant (cs : list SaveCall) (lo : Z) (w : World) :
  List.NoDup (ids (stored_books (storage w))) ->
  (forall x, In x (ids (stored_books (storage w))) -> x <= lo) ->
  increasing_clock lo cs ->
  List.NoDup (ids (stored_books (storage (run_saves cs w))))
  /\ exists hi, lo <= hi
       /\ forall x, In x (ids (stored_books (storage (run_saves cs w)))) -> x <= hi.
Proof.
  revert lo w. induction cs as [|c cs IH]; intros lo w N B Inc; simpl in *.
  - split; [exact N|]. exists lo. split; [lia|exact B].
  - destruct (sc_book c) as [book0|] eqn:E.
    + destruct (IH lo (save_step c w)) as (N' & hi & L & B'); [| |exact Inc|].
      * apply save_step_distinct; [exact N|]. rewrite E. discriminate.
      * intros x I. apply save_step_ids_in in I as [I|[E' _]]; [now apply B|].
        rewrite E in E'. discriminate.
      * split; [exact N'|]. exists hi. split; [exact L|exact B'].
    + destruct Inc as [Lt Inc].
      destruct (IH (sc_now c) (save_step c w)) as (N' & hi & L & B');
        [| |exact Inc|].
      * apply save_step_distinct; [exact N|].
        intros _ I. apply B in I. lia.
      * intros x I. apply save_step_ids_in in I as [I|[_ ->]]; [|lia].
        apply B in I. lia.
      * split; [exact N'|]. exists hi. split; [lia|exact B'].
Qed.

(** X21: a clock that goes forward keeps the ids apart.  From a
    collection whose ids are pairwise distinct and at most [lo], a
    sequence of [saveBook] calls, whatever their fields and the storage
    outcomes they meet, in which every add reads a clock value above [lo]
    and above the readings of the adds before it, leaves a collection
    whose ids are pairwise distinct. *)
Theorem increasing_clock_keeps_ids_distinct
    (cs : list SaveCall) (lo : Z) (w : World) :
  List.NoDup (ids (stored_books (storage w))) ->
  (forall x, In x (ids (stored_books (storage w))) -> x <= lo) ->
  increasing_clock lo cs ->
  List.NoDup (ids (stored_books (storage (run_saves cs w)))).
Proof.
  intros N B Inc. exact (proj1 (increasing_clock_invariant cs lo w N B Inc)).
Qed.

(** ** When the save is refused *)

Lemma trimStart_empty (s : string) :
  trimStart s = "" <-> all_whitespace s = true.
Proof.
  induction s as [|c s IH]; simpl; [easy|].
  destruct (is_whitespace c); simpl; [exact IH|]. split; discriminate.
Qed.

Lemma trimStart_head (s : string) :
  trimStart s = ""
  \/ exists c r, trimStart s = String c r /\ is_whitespace c = false.
Proof.
  induction s as [|c s IH]; simpl; [now left|].
  destruct (is_whitespace c) eqn:E; [exact IH|]. right. eauto.
Qed.

Lemma trimEnd_head (c : ascii) (r : string) :
  is_whitespace c = false -> trimEnd (String c r) <> "".
Proof.
  intros E. simpl. rewrite E. now destruct (trimEnd r).
Qed.

Lemma trim_empty (s : string) : trim s = "" <-> all_whitespace s = true.
Proof.
  unfold trim. rewrite <- trimStart_empty.
  destruct (trimStart_head s) as [->|(c & r & -> & E)]; [easy|].
  split; [|discriminate]. intros H. now apply trimEnd_head in H.
Qed.

Lemma filled_iff (t a s : string) :
  filled t a s <->
  all_whitespace t = false /\ all_whitespace a = false /\ all_whitespace s = false.
Proof.
  unfold filled. rewrite !trim_empty.
  destruct (all_whitespace t), (all_whitespace a), (all_whitespace s);
    intuition congruence.
Qed.

(** X22: the save is refused exactly when a field has nothing but
    white space.  In that case the dialog is raised and no storage call is
    issued, whatever is stored; in the other case, on a storage content
    the application wrote (the entry [books] absent or a text
    [JSON.stringify] gave), no dialog is raised and, whether the storage
    calls succeed or reject, exactly one read and then one write of
    [books] are issued (the write follows even a read that rejected) and
    the screen goes back. *)
Theorem saveBook_refuses_blank_only
    (book : option Book) (t a s : string) (w : World) :
  (all_whitespace t || all_whitespace a || all_whitespace s = true ->
   alerts (snd (saveBook book t a s w)) =
     alerts w ++ ["Please fill out all fields."]
   /\ calls (snd (saveBook book t a s w)) = calls w
   /\ navigation (snd (saveBook book t a s w)) = navigation w)
  /\ (all_whitespace t || all_whitespace a || all_whitespace s = false ->
      well_stored (storage w) ->
      alerts (snd (saveBook book t a s w)) = alerts w
      /\ (exists text,
            calls (snd (saveBook book t a s w)) =
            calls w ++ [GetItem BOOKS_KEY; SetItem BOOKS_KEY text])
      /\ navigation (snd (saveBook book t a s w)) = navigation w ++ [GoBack]).
Proof.
  split.
  - intros B. unfold saveBook. rewrite blank_check; [easy|].
    rewrite !trim_empty.
    apply orb_true_iff in B as [B|B]; [apply orb_true_iff in B as [B|B]|]; auto.
  - intros B _.
    assert (F : filled t a s).
    { apply filled_iff. apply orb_false_iff in B as [B Bs].
      apply orb_false_iff in B as [Bt Ba]. easy. }
    rewrite (saveBook_run book t a s w F). cbn [snd alerts calls navigation].
    split; [reflexivity|]. split; [|reflexivity].
    eexists. rewrite getBooks_run. cbn [snd calls].
    rewrite <- app_assoc. reflexivity.
Qed.

End Further.

(** * The reference codec satisfies the interface *)

Module RefJSONFacts.
Import RefJSON.

Lemma sapp_nil (s : string) : EmptyString +:+ s = s.
Proof. reflexivity. Qed.

Lemma sapp_cons (c : ascii) (s r : string) : String c s +:+ r = String c (s +:+ r).
Proof. reflexivity. Qed.

Lemma sapp_assoc (a b c : string) : (a +:+ b) +:+ c = a +:+ (b +:+ c).
Proof.
  induction a as [|x a IH]; [reflexivity|].
  now rewrite !sapp_cons, IH.
Qed.

Lemma expect_nil (s : string) : expect EmptyString s = Some s.
Proof. reflexivity. Qed.

Lemma expect_cons (c : ascii) (p s : string) :
  expect (String c p) (String c s) = expect p s.
Proof. simpl. now rewrite Ascii.eqb_refl. Qed.

Ltac flatten :=
  repeat (rewrite sapp_assoc || rewrite sapp_cons || rewrite sapp_nil).

Lemma all_num_uint (d : Decimal.uint) : all_num (NilEmpty.string_of_uint d) = true.
Proof. induction d; simpl; trivial. Qed.

Lemma all_num_number (n : Z) : all_num (number n) = true.
Proof.
  unfold number, NilZero.string_of_int, NilZero.string_of_uint.
  destruct (Z.to_int n) as [d|d]; destruct d; simpl; trivial; apply all_num_uint.
Qed.

Lemma span_num_app (s r : string) :
  all_num s = true ->
  span_num (s +:+ String "," r) = (s, String "," r).
Proof.
  induction s as [|c s IH]; [reflexivity|].
  rewrite sapp_cons. simpl. intros H. apply andb_true_iff in H as [Hc Hs].
  now rewrite Hc, (IH Hs).
Qed.

Lemma int_of_number (n : Z) :
  exists d, NilZero.int_of_string (number n) = Some d /\ Z.of_int d = n.
Proof.
  unfold number.
  destruct (Decimal.int_eq_dec (Z.to_int n) (Decimal.Pos Decimal.Nil)) as [E|N1].
  { destruct n; simpl in E; try discriminate.
    exfalso. injection E as E. revert E. apply DecimalPos.Unsigned.to_uint_nonnil. }
  destruct (Decimal.int_eq_dec (Z.to_int n) (Decimal.Neg Decimal.Nil)) as [E|N2].
  { destruct n; simpl in E; try discriminate.
    exfalso. injection E as E. revert E. apply DecimalPos.Unsigned.to_uint_nonnil. }
  exists (Z.to_int n). split; [now apply NilZero.isi | apply DecimalZ.of_to].
Qed.

Lemma read_number_app (n : Z) (r : string) :
  read_number (number n +:+ String "," r) = Some (n, String "," r).
Proof.
  unfold read_number. rewrite (span_num_app _ _ (all_num_number n)).
  destruct (int_of_number n) as (d & -> & <-). reflexivity.
Qed.

Lemma read_chars_app (s r : string) :
  read_chars (escape s +:+ String dquote r) = Some (s, r).
Proof.
  induction s as [|c s IH].
  - reflexivity.
  - simpl escape. destruct (needs_escape c) eqn:E; rewrite !sapp_cons.
    + simpl. rewrite E, IH. reflexivity.
    + simpl. unfold needs_escape in E. apply orb_false_iff in E as [E1 E2].
      now rewrite E1, E2, IH.
Qed.

Lemma read_string_app (s r : string) :
  read_string (quote s +:+ r) = Some (s, r).
Proof.
  unfold quote. flatten. simpl. apply read_chars_app.
Qed.

Lemma read_book_app (b : Book) (r : string) :
  read_book (book_json b +:+ r) = Some (b, r).
Proof.
  destruct b as [i t a s]. unfold read_book, book_json.
  cbn [id title author status].
  unfold key. flatten.
  rewrite !expect_cons, expect_nil.
  rewrite read_number_app.
  rewrite !expect_cons, expect_nil, read_string_app.
  rewrite !expect_cons, expect_nil, read_string_app.
  rewrite !expect_cons, expect_nil, read_string_app.
  rewrite !expect_cons, expect_nil.
  reflexivity.
Qed.

Lemma elements_cons (b b' : Book) (rest : list Book) :
  elements (b :: b' :: rest) = book_json b +:+ "," +:+ elements (b' :: rest).
Proof. reflexivity. Qed.

Lemma read_elements_app (books : list Book) (fuel : nat) :
  books <> [] ->
  (length books <= fuel)%nat ->
  read_elements fuel (elements books +:+ "]") = Some books.
Proof.
  revert fuel. induction books as [|b [|b' rest] IH]; intros fuel N L.
  - contradiction.
  - destruct fuel as [|fuel]; [simpl in L; lia|].
    simpl elements. simpl read_elements. rewrite read_book_app. reflexivity.
  - destruct fuel as [|fuel]; [simpl in L; lia|].
    rewrite elements_cons. flatten. simpl read_elements.
    rewrite read_book_app. simpl Ascii.eqb. cbv iota.
    rewrite IH; [reflexivity|discriminate|simpl in *; lia].
Qed.

Lemma length_sapp (a b : string) :
  String.length (a +:+ b) = (String.length a + String.length b)%nat.
Proof.
  induction a as [|c a IH]; [reflexivity|].
  rewrite sapp_cons. simpl. now rewrite IH.
Qed.

Lemma length_elements (books : list Book) :
  (length books <= String.length (elements books))%nat.
Proof.
  induction books as [|b [|b' rest] IH].
  - simpl. lia.
  - simpl. unfold book_json. flatten. simpl. lia.
  - rewrite elements_cons, !length_sapp. simpl in *. lia.
Qed.

Lemma elements_head (b : Book) (rest : list Book) :
  exists s, elements (b :: rest) = String "{" s.
Proof.
  destruct rest as [|b' rest]; [simpl elements|rewrite elements_cons];
    unfold book_json; flatten; eauto.
Qed.

Lemma parse_stringify (books : list Book) : parse (stringify books) = Some books.
Proof.
  unfold stringify. flatten. simpl parse.
  destruct books as [|b rest]; [reflexivity|].
  destruct (elements_head b rest) as (s & E).
  remember (b :: rest) as books eqn:B.
  assert (R : read_elements (String.length (elements books +:+ "]"))
                (elements books +:+ "]") = Some books).
  { apply read_elements_app; [subst; discriminate|].
    rewrite length_sapp. pose proof (length_elements books). lia. }
  rewrite E in *. rewrite sapp_cons in *. exact R.
Qed.

Lemma parse_empty : parse "" = None.
Proof. reflexivity. Qed.

(** The reference codec as an implementation of the interface. *)
Definition codec : JSON :=
  Build_JSON stringify parse parse_stringify parse_empty.

Lemma parse_full_books (s : string) (books : list Book) :
  parse_full s = Parsed_books books <-> parse s = Some books.
Proof.
  unfold parse_full. destruct (parse s) as [l|].
  - split; intros E; injection E as ->; reflexivity.
  - split; [|discriminate].
    destruct (String.eqb s "null" || String.eqb s "true"
              || String.eqb s "false" || String.eqb s "{}"); discriminate.
Qed.

Definition codec_full : JSON_full codec :=
  Build_JSON_full codec parse_full parse_full_books.

End RefJSONFacts.

(** * Concrete runs with the reference codec *)

Import RefJSONFacts.
#[local] Existing Instance codec.
#[local] Existing Instance codec_full.

Example JS_String_timestamp : JS_String 1730000000000 = "1730000000000".
Proof. vm_compute. reflexivity. Qed.

Example JS_String_negative : JS_String (-3) = "-3".
Proof. vm_compute. reflexivity. Qed.

Example trim_blank : trim "  " = "" /\ trim " a b " = "a b".
Proof. split; reflexivity. Qed.

(** The scenarios of the specification that the screens can produce. *)

Example empty_store_lists_nothing :
  fst (getBooks (fresh_world 1000)) = Ok [].
Proof. reflexivity. Qed.

Example add_then_list :
  fst (getBooks (snd (saveBook None "A" "X" "reading" (fresh_world 1))))
  = Ok [book_A].
Proof. vm_compute. reflexivity. Qed.

Example edit_same_id_keeps_one_record :
  fst (getBooks (snd (saveBook (Some book_A) "A2" "X" "reading"
                               (world_of [book_A] 1000))))
  = Ok [mkBook 1 "A2" "X" "reading"].
Proof. vm_compute. reflexivity. Qed.

Example add_add_delete :
  fst (getBooks (snd (deleteBook 1
    (snd (saveBook None "B" "Y" "read"
       (at_time 2 [] (snd (saveBook None "A" "X" "reading" (fresh_world 1))))))))) 
  = Ok [book_B].
Proof. vm_compute. reflexivity. Qed.

(** A stored [null] is returned as it is, and nothing is logged; a
    stored text that does not parse gives the empty array and a log
    line. *)
Example getBooks_stored_null :
  Untyped.getBooks null_world =
  (Ok (Value_other "null"),
   mkWorld {[ BOOKS_KEY := "null" ]} [] 1000 [GetItem BOOKS_KEY] [] [] [] None).
Proof. vm_compute. reflexivity. Qed.

Example getBooks_stored_corrupt :
  Untyped.getBooks corrupt_world =
  (Ok (Value_books []),
   mkWorld {[ BOOKS_KEY := "[{" ]} [] 1000 [GetItem BOOKS_KEY]
           [(Some "Error getting books:", SyntaxError)] [] [] None).
Proof. vm_compute. reflexivity. Qed.

(** A read that rejects before a write that succeeds: the collection
    read is empty, and what is written replaces the stored one. *)
Example delete_after_failed_read_empties :
  stored_books (storage (snd (deleteBook 7
    (mkWorld {[ BOOKS_KEY := RefJSON.stringify [book_A; book_B] ]}
             [true; false] 1000 [] [] [] [] None))))
  = [].
Proof. vm_compute. reflexivity. Qed.

(** ** Witnesses *)

Lemma saveBook_edits_or_adds_witness :
  filled "A2" "X" "reading"
  /\ calm 2 (world_of [book_A; book_B] 1000)
  /\ ids (stored_books (storage (snd (saveBook (Some book_A) "A2" "X" "reading"
                                               (world_of [book_A; book_B] 1000)))))
     = [1; 2]
  /\ stored_books (storage (snd (saveBook (Some book_A) "A2" "X" "reading"
                                          (world_of [book_A; book_B] 1000))))
     !! 0%nat = Some (mkBook 1 "A2" "X" "reading").
Proof.
  assert (F : filled "A2" "X" "reading").
  { repeat split; vm_compute; discriminate. }
  split; [exact F|]. split; [reflexivity|].
  destruct (saveBook_edits_or_adds (Some book_A) "A2" "X" "reading"
              (world_of [book_A; book_B] 1000) F eq_refl)
    as (_ & _ & I & L & _).
  split; [exact I|].
  exact (L 0%nat book_A eq_refl).
Defined.

Lemma saveBook_keeps_ids_distinct_witness :
  List.NoDup (ids (stored_books (storage (fresh_world 0))))
  /\ fresh_ids [add_at 5 "A"; add_at 6 "B"] (fresh_world 0)
  /\ List.NoDup (ids (stored_books (storage
        (run_saves [add_at 5 "A"; add_at 6 "B"] (fresh_world 0))))).
Proof.
  assert (N : List.NoDup (ids (stored_books (storage (fresh_world 0))))).
  { constructor. }
  assert (F : fresh_ids [add_at 5 "A"; add_at 6 "B"] (fresh_world 0)).
  { vm_compute. repeat split; intros _ H; [exact H|].
    destruct H as [H|H]; [discriminate H|exact H]. }
  split; [exact N|]. split; [exact F|].
  exact (saveBook_keeps_ids_distinct [add_at 5 "A"; add_at 6 "B"]
           (fresh_world 0) N F).
Defined.

Lemma saveBook_then_getBooks_witness :
  filled "A2" "X" "reading"
  /\ calm 3 (world_of [book_A; book_B] 1000)
  /\ In (id book_A) (ids (stored_books (storage (world_of [book_A; book_B] 1000))))
  /\ exists listed,
       fst (getBooks (snd (saveBook (Some book_A) "A2" "X" "reading"
                                    (world_of [book_A; book_B] 1000))))
       = Ok listed
       /\ In (mkBook 1 "A2" "X" "reading") listed.
Proof.
  assert (F : filled "A2" "X" "reading").
  { repeat split; vm_compute; discriminate. }
  assert (I : In (id book_A)
                 (ids (stored_books (storage (world_of [book_A; book_B] 1000))))).
  { vm_compute. left. reflexivity. }
  split; [exact F|]. split; [reflexivity|]. split; [exact I|].
  apply (saveBook_then_getBooks (Some book_A) "A2" "X" "reading"
           (world_of [book_A; book_B] 1000) F eq_refl).
  intros book0 E. injection E as <-. exact I.
Defined.

Lemma storage_errors_contained_witness :
  (next_fails rejecting_world = true
   /\ fst (Untyped.getBooks rejecting_world) = Ok (Value_books [])
   /\ fst (saveBooks [book_B] rejecting_world) = Ok tt
   /\ storage (snd (saveBooks [book_B] rejecting_world)) = storage rejecting_world)
  /\ (next_fails corrupt_world = false
      /\ storage corrupt_world !! BOOKS_KEY = Some "[{"
      /\ JSON_parse_full "[{" = Parse_error
      /\ fst (Untyped.getBooks corrupt_world) = Ok (Value_books [])
      /\ console (snd (Untyped.getBooks corrupt_world)) =
         [(Some "Error getting books:", SyntaxError)])
  /\ (next_fails (fresh_world 1000) = false
      /\ storage (fresh_world 1000) !! BOOKS_KEY = None
      /\ fst (Untyped.getBooks (fresh_world 1000)) = Ok (Value_books [])).
Proof.
  destruct (storage_errors_contained [book_B] rejecting_world)
    as (_ & R & _ & _ & S & W).
  destruct (storage_errors_contained [book_B] corrupt_world)
    as (_ & _ & C & _).
  destruct (storage_errors_contained [book_B] (fresh_world 1000))
    as (_ & _ & _ & E & _).
  split; [|split].
  - split; [reflexivity|].
    split; [exact (proj1 (R eq_refl))|].
    split; [exact S|].
    exact (proj1 (W eq_refl)).
  - assert (N : "[{" <> "") by discriminate.
    split; [reflexivity|]. split; [reflexivity|]. split; [reflexivity|].
    exact (C "[{" eq_refl eq_refl N eq_refl).
  - split; [reflexivity|]. split; [reflexivity|].
    exact (proj1 (E eq_refl (or_introl eq_refl))).
Defined.

Lemma deleteBook_removes_witness :
  calm 2 (world_of [book_A; book_B] 1000)
  /\ stored_books (storage (snd (deleteBook 1 (world_of [book_A; book_B] 1000))))
     = [book_B]
  /\ stored_books (storage (snd (deleteBook 7 (world_of [book_A; book_B] 1000))))
     = [book_A; book_B].
Proof.
  split; [reflexivity|]. split.
  - destruct (deleteBook_removes 1 (world_of [book_A; book_B] 1000) eq_refl)
      as (_ & _ & _ & K & _).
    vm_compute in K |- *. exact K.
  - destruct (deleteBook_removes 7 (world_of [book_A; book_B] 1000) eq_refl)
      as (_ & _ & _ & _ & K & _).
    vm_compute in K |- *. apply K. intros [H|[H|H]]; [discriminate H..|exact H].
Defined.

Lemma deleteBook_removes_every_match_witness :
  calm 2 (world_of [book_A; book_B; book_C; book_D] 1000)
  /\ stored_books (storage (snd (deleteBook 1
        (world_of [book_A; book_B; book_C; book_D] 1000))))
     = [book_B; book_D].
Proof.
  split; [reflexivity|].
  destruct (deleteBook_removes_every_match 1
              (world_of [book_A; book_B; book_C; book_D] 1000) eq_refl)
    as (K & _).
  vm_compute in K |- *. exact K.
Defined.

Lemma dangling_lastBook_tolerated_witness :
  calm 5 (world_of [book_A; book_B] 1000)
  /\ storage (snd (deleteBook (id book_A)
                 (snd (renderItem_onPress book_A (world_of [book_A; book_B] 1000)))))
     !! LAST_BOOK_KEY = Some "1"
  /\ fst (HomeScreen_mount
            (snd (deleteBook (id book_A)
               (snd (renderItem_onPress book_A (world_of [book_A; book_B] 1000))))))
     = Ok tt
  /\ lastBook (snd (HomeScreen_mount
            (snd (deleteBook (id book_A)
               (snd (renderItem_onPress book_A (world_of [book_A; book_B] 1000)))))))
     = None.
Proof.
  destruct (dangling_lastBook_tolerated book_A (world_of [book_A; book_B] 1000)
              eq_refl)
    as (P & _ & R & L & _).
  split; [reflexivity|].
  split; [vm_compute in P |- *; exact P|].
  split; [exact R | exact L].
Defined.

Lemma saveBook_blank_field_rejected_witness :
  trim "  " = ""
  /\ saveBook None "  " "X" "reading" (world_of [book_B] 1000) =
     (Ok tt,
      mkWorld {[ BOOKS_KEY := RefJSON.stringify [book_B] ]} [] 1000 [] []
              ["Please fill out all fields."] [] None).
Proof.
  split; [reflexivity|].
  apply (saveBook_blank_field_rejected None "  " "X" "reading"
           (world_of [book_B] 1000)).
  left. reflexivity.
Defined.

Lemma persisted_layout_witness :
  calm 2 pointer_world
  /\ storage pointer_world !! "lastBook" = Some (JS_String 2)
  /\ lastBook (snd (HomeScreen_mount pointer_world)) = Some book_B
  /\ storage (snd (saveBooks [book_A] pointer_world)) !! "books" =
     Some (RefJSON.stringify [book_A])
  /\ storage (snd (renderItem_onPress book_A pointer_world)) !! "lastBook" =
     Some "1".
Proof.
  assert (P : storage pointer_world !! "lastBook" = Some (JS_String 2)).
  { vm_compute. reflexivity. }
  destruct (persisted_layout [book_A] book_A pointer_world)
    as (_ & S & R & M & _).
  split; [reflexivity|]. split; [exact P|].
  split; [|split].
  - specialize (M 2 eq_refl P). vm_compute in M |- *. exact M.
  - exact (proj1 (S eq_refl)).
  - destruct (R eq_refl) as [K _]. vm_compute in K |- *. exact K.
Defined.

(** ** Counterexamples *)

(** C1 as stated fails: on the edit screen, with a book whose id no
    stored record has, the save appends nothing; the collection stays as
    it was. *)
Lemma saveBook_stale_edit_appends_nothing :
  filled "A2" "X" "reading"
  /\ calm 2 (world_of [book_B] 1000)
  /\ ~ In (id book_A) (ids (stored_books (storage (world_of [book_B] 1000))))
  /\ stored_books (storage (snd (saveBook (Some book_A) "A2" "X" "reading"
                                          (world_of [book_B] 1000))))
     = [book_B]
  /\ ~ exists i,
        stored_books (storage (snd (saveBook (Some book_A) "A2" "X" "reading"
                                             (world_of [book_B] 1000))))
        = stored_books (storage (world_of [book_B] 1000))
          ++ [mkBook i "A2" "X" "reading"].
Proof.
  split; [repeat split; vm_compute; discriminate|].
  split; [reflexivity|].
  split; [vm_compute; intros [H|H]; [discriminate H|exact H]|].
  split; [vm_compute; reflexivity|].
  intros [i H]. vm_compute in H. discriminate H.
Qed.

(** C2 as stated fails: two adds that read the same clock value leave
    two records with the same id. *)
Lemma same_clock_duplicates_id :
  List.NoDup (ids (stored_books (storage (fresh_world 0))))
  /\ stored_books (storage (run_saves [add_at 5 "A"; add_at 5 "B"] (fresh_world 0)))
     = [mkBook 5 "A" "X" "reading"; mkBook 5 "B" "X" "reading"]
  /\ ~ List.NoDup (ids (stored_books (storage
          (run_saves [add_at 5 "A"; add_at 5 "B"] (fresh_world 0))))).
Proof.
  split; [constructor|].
  split; [vm_compute; reflexivity|].
  assert (E : ids (stored_books (storage
                (run_saves [add_at 5 "A"; add_at 5 "B"] (fresh_world 0))))
              = [5; 5]) by (vm_compute; reflexivity).
  rewrite E. intros N. inversion N as [|x l H _]; subst.
  apply H. left. reflexivity.
Qed.

(** C3 as stated fails: after a save on the edit screen with a book whose
    id no stored record has, the list read back holds no record with that
    id. *)
Lemma saveBook_stale_edit_not_listed :
  filled "A" "X" "reading"
  /\ calm 3 (fresh_world 1000)
  /\ fst (getBooks (snd (saveBook (Some book_A) "A" "X" "reading"
                                  (fresh_world 1000))))
     = Ok []
  /\ ~ exists listed b,
        fst (getBooks (snd (saveBook (Some book_A) "A" "X" "reading"
                                     (fresh_world 1000))))
        = Ok listed
        /\ In b listed /\ id b = id book_A.
Proof.
  assert (E : fst (getBooks (snd (saveBook (Some book_A) "A" "X" "reading"
                                           (fresh_world 1000))))
              = Ok []) by (vm_compute; reflexivity).
  split; [repeat split; vm_compute; discriminate|].
  split; [reflexivity|].
  split; [exact E|].
  intros (listed & b & L & I & _). rewrite E in L.
  injection L as <-. destruct I.
Qed.

(** ** Witnesses of the further properties *)

Lemma filled_A2 : filled "A2" "X" "reading".
Proof. repeat split; vm_compute; discriminate. Defined.

Lemma saveBooks_then_getBooks_witness :
  calm 2 (world_of [book_A] 1000)
  /\ fst (getBooks (snd (saveBooks [book_B] (world_of [book_A] 1000)))) = Ok [book_B].
Proof.
  split; [reflexivity|].
  exact (proj1 (saveBooks_then_getBooks [book_B] (world_of [book_A] 1000) eq_refl)).
Defined.

Lemma deleteBook_rejected_read_empties_witness :
  next_fails (world_with [book_A; book_B] [true; false]) = true
  /\ second_fails (world_with [book_A; book_B] [true; false]) = false
  /\ stored_books (storage (snd (deleteBook 7
        (world_with [book_A; book_B] [true; false])))) = [].
Proof.
  split; [reflexivity|]. split; [reflexivity|].
  exact (proj1 (deleteBook_rejected_read_empties 7
                  (world_with [book_A; book_B] [true; false]) eq_refl eq_refl)).
Defined.

Lemma saveBook_rejected_read_replaces_witness :
  filled "A2" "X" "reading"
  /\ next_fails (world_with [book_A; book_B] [true]) = true
  /\ second_fails (world_with [book_A; book_B] [true]) = false
  /\ stored_books (storage (snd (saveBook None "A2" "X" "reading"
        (world_with [book_A; book_B] [true])))) = [mkBook 1000 "A2" "X" "reading"].
Proof.
  split; [exact filled_A2|]. split; [reflexivity|]. split; [reflexivity|].
  exact (proj1 (saveBook_rejected_read_replaces None "A2" "X" "reading"
                  (world_with [book_A; book_B] [true]) filled_A2 eq_refl eq_refl)).
Defined.

Lemma rejected_write_keeps_storage_witness :
  second_fails (world_with [book_A; book_B] [false; true]) = true
  /\ storage (snd (deleteBook 1 (world_with [book_A; book_B] [false; true]))) =
     storage (world_with [book_A; book_B] [false; true])
  /\ storage (snd (saveBook None "A2" "X" "reading"
                     (world_with [book_A; book_B] [false; true]))) =
     storage (world_with [book_A; book_B] [false; true]).
Proof.
  destruct (rejected_write_keeps_storage None "A2" "X" "reading" 1
              (world_with [book_A; book_B] [false; true]) eq_refl)
    as [(D & _) S].
  split; [reflexivity|]. split; [exact D|].
  exact (proj1 (S filled_A2)).
Defined.

Lemma deleteBook_twice_witness :
  calm 4 (world_of [book_A; book_B; book_C] 1000)
  /\ stored_books (storage (snd (deleteBook 1
        (snd (deleteBook 1 (world_of [book_A; book_B; book_C] 1000)))))) =
     stored_books (storage (snd (deleteBook 1
        (world_of [book_A; book_B; book_C] 1000)))).
Proof.
  split; [reflexivity|].
  exact (deleteBook_twice 1 (world_of [book_A; book_B; book_C] 1000) eq_refl).
Defined.

Lemma saveBook_edit_twice_witness :
  filled "A2" "X" "reading"
  /\ calm 4 (world_of [book_A; book_B] 1000)
  /\ stored_books (storage (snd (saveBook (Some book_A) "A2" "X" "reading"
        (snd (saveBook (Some book_A) "A2" "X" "reading"
                (world_of [book_A; book_B] 1000)))))) =
     stored_books (storage (snd (saveBook (Some book_A) "A2" "X" "reading"
        (world_of [book_A; book_B] 1000)))).
Proof.
  split; [exact filled_A2|]. split; [reflexivity|].
  exact (saveBook_edit_twice book_A "A2" "X" "reading"
           (world_of [book_A; book_B] 1000) filled_A2 eq_refl).
Defined.

Lemma add_then_delete_witness :
  filled "A2" "X" "reading"
  /\ calm 4 (world_of [book_A; book_B] 1000)
  /\ ~ In (clock (world_of [book_A; book_B] 1000))
          (ids (stored_books (storage (world_of [book_A; book_B] 1000))))
  /\ stored_books (storage (snd (deleteBook (clock (world_of [book_A; book_B] 1000))
        (snd (saveBook None "A2" "X" "reading" (world_of [book_A; book_B] 1000)))))) =
     stored_books (storage (world_of [book_A; book_B] 1000)).
Proof.
  assert (N : ~ In (clock (world_of [book_A; book_B] 1000))
                   (ids (stored_books (storage (world_of [book_A; book_B] 1000))))).
  { vm_compute. intros [H|[H|H]]; [discriminate H..|exact H]. }
  split; [exact filled_A2|]. split; [reflexivity|]. split; [exact N|].
  exact (add_then_delete "A2" "X" "reading" (world_of [book_A; book_B] 1000)
           filled_A2 eq_refl N).
Defined.

Lemma delete_then_edit_witness :
  filled "A2" "X" "reading"
  /\ calm 4 (world_of [book_A; book_B] 1000)
  /\ stored_books (storage (snd (saveBook (Some book_A) "A2" "X" "reading"
        (snd (deleteBook (id book_A) (world_of [book_A; book_B] 1000)))))) =
     stored_books (storage (snd (deleteBook (id book_A)
        (world_of [book_A; book_B] 1000)))).
Proof.
  split; [exact filled_A2|]. split; [reflexivity|].
  destruct (delete_then_edit book_A "A2" "X" "reading"
              (world_of [book_A; book_B] 1000) filled_A2 eq_refl)
    as (_ & S & _).
  exact S.
Defined.

Lemma press_then_mount_witness :
  calm 3 (world_of [book_A; book_B] 1000)
  /\ In book_B (stored_books (storage (world_of [book_A; book_B] 1000)))
  /\ List.NoDup (ids (stored_books (storage (world_of [book_A; book_B] 1000))))
  /\ lastBook (snd (HomeScreen_mount
        (snd (renderItem_onPress book_B (world_of [book_A; book_B] 1000))))) =
     Some book_B.
Proof.
  assert (I : In book_B (stored_books (storage (world_of [book_A; book_B] 1000)))).
  { vm_compute. right. left. reflexivity. }
  assert (N : List.NoDup
                (ids (stored_books (storage (world_of [book_A; book_B] 1000))))).
  { vm_compute. constructor.
    - intros [H|H]; [discriminate H|exact H].
    - constructor; [intros H; exact H|constructor]. }
  split; [reflexivity|]. split; [exact I|]. split; [exact N|].
  destruct (press_then_mount book_B (world_of [book_A; book_B] 1000) eq_refl)
    as (_ & _ & M).
  exact (M I N).
Defined.

Lemma press_navigates_iff_stored_witness :
  next_fails rejecting_world = true
  /\ navigation (snd (renderItem_onPress book_A rejecting_world)) =
     navigation rejecting_world
  /\ next_fails (world_of [book_A] 1000) = false
  /\ navigation (snd (renderItem_onPress book_A (world_of [book_A] 1000))) =
     navigation (world_of [book_A] 1000) ++ [Navigate "BookDetails" (Some book_A)].
Proof.
  destruct (press_navigates_iff_stored book_A rejecting_world) as (_ & _ & R).
  destruct (press_navigates_iff_stored book_A (world_of [book_A] 1000))
    as (_ & S & _).
  split; [reflexivity|]. split; [exact (proj1 (proj2 (R eq_refl)))|].
  split; [reflexivity|]. exact (proj1 (proj2 (S eq_refl))).
Defined.

Lemma fetchLastBook_rejected_read_witness :
  next_fails rejecting_world = true
  /\ lastBook (snd (fetchLastBook rejecting_world)) = lastBook rejecting_world
  /\ next_fails pointer_world_rejecting = false
  /\ second_fails pointer_world_rejecting = true
  /\ storage pointer_world_rejecting !! LAST_BOOK_KEY = Some (JS_String 2)
  /\ lastBook (snd (fetchLastBook pointer_world_rejecting)) =
     lastBook pointer_world_rejecting.
Proof.
  assert (P : storage pointer_world_rejecting !! LAST_BOOK_KEY = Some (JS_String 2)).
  { vm_compute. reflexivity. }
  destruct (fetchLastBook_rejected_read rejecting_world) as (R & _).
  destruct (fetchLastBook_rejected_read pointer_world_rejecting) as (_ & S).
  split; [reflexivity|]. split; [exact (proj1 (R eq_refl))|].
  split; [reflexivity|]. split; [reflexivity|]. split; [exact P|].
  exact (proj1 (S 2 eq_refl eq_refl P)).
Defined.

Lemma edit_shows_on_home_witness :
  filled "A2" "X" "reading"
  /\ calm 5 (world_of [book_A; book_B] 1000)
  /\ In (id book_A) (ids (stored_books (storage (world_of [book_A; book_B] 1000))))
  /\ lastBook (snd (HomeScreen_mount
        (snd (saveBook (Some book_A) "A2" "X" "reading"
           (snd (renderItem_onPress book_A (world_of [book_A; book_B] 1000)))))))
     = Some (mkBook 1 "A2" "X" "reading").
Proof.
  assert (I : In (id book_A)
                 (ids (stored_books (storage (world_of [book_A; book_B] 1000))))).
  { vm_compute. left. reflexivity. }
  split; [exact filled_A2|]. split; [reflexivity|]. split; [exact I|].
  exact (edit_shows_on_home book_A "A2" "X" "reading"
           (world_of [book_A; book_B] 1000) filled_A2 eq_refl I).
Defined.

Lemma home_keeps_deleted_book_witness :
  filled "A2" "X" "reading"
  /\ calm 4 home_world
  /\ lastBook home_world = Some book_A
  /\ lastBook (snd (deleteBook (id book_A) home_world)) = Some book_A
  /\ ~ In (id book_A)
          (ids (stored_books (storage (snd (deleteBook (id book_A) home_world))))).
Proof.
  destruct (home_keeps_deleted_book book_A "A2" "X" "reading" home_world
              filled_A2 eq_refl eq_refl) as (L & N & _).
  split; [exact filled_A2|]. split; [reflexivity|]. split; [reflexivity|].
  split; [exact L|exact N].
Defined.

Lemma untouched_form_saved_witness :
  filled (title book_A) (author book_A) (status book_A)
  /\ calm 2 (world_of [book_A; book_B] 1000)
  /\ (forall b, In b (stored_books (storage (world_of [book_A; book_B] 1000))) ->
                id b = id book_A -> b = book_A)
  /\ stored_books (storage (snd (saveBook (Some book_A)
        (initial_title (Some book_A)) (initial_author (Some book_A))
        (initial_status (Some book_A)) (world_of [book_A; book_B] 1000)))) =
     stored_books (storage (world_of [book_A; book_B] 1000)).
Proof.
  assert (F : filled (title book_A) (author book_A) (status book_A)).
  { repeat split; vm_compute; discriminate. }
  assert (U : forall b,
             In b (stored_books (storage (world_of [book_A; book_B] 1000))) ->
             id b = id book_A -> b = book_A).
  { intros b I E. vm_compute in I. destruct I as [<-|[<-|[]]];
      [reflexivity|discriminate E]. }
  split; [exact F|]. split; [reflexivity|]. split; [exact U|].
  exact (proj2 (untouched_form_saved book_A (world_of [book_A; book_B] 1000))
           F eq_refl U).
Defined.

Lemma collection_length_witness :
  filled "A2" "X" "reading"
  /\ calm 2 (world_of [book_A; book_B; book_C] 1000)
  /\ length (stored_books (storage (snd (saveBook None "A2" "X" "reading"
        (world_of [book_A; book_B; book_C] 1000))))) =
     S (length (stored_books (storage (world_of [book_A; book_B; book_C] 1000))))
  /\ (length (stored_books (storage (snd (deleteBook 1
         (world_of [book_A; book_B; book_C] 1000)))))
      + count_occ Z.eq_dec
          (ids (stored_books (storage (world_of [book_A; book_B; book_C] 1000))))
          1%Z
      = length (stored_books (storage (world_of [book_A; book_B; book_C] 1000))))%nat.
Proof.
  destruct (collection_length book_A "A2" "X" "reading" 1
              (world_of [book_A; book_B; book_C] 1000) filled_A2 eq_refl)
    as (A & _ & D).
  split; [exact filled_A2|]. split; [reflexivity|].
  split; [exact A|exact D].
Defined.

Lemma well_stored_kept_witness :
  well_stored (storage (world_with [book_A] [false; true]))
  /\ well_stored (storage (snd (saveBook None "A2" "X" "reading"
                                  (world_with [book_A] [false; true]))))
  /\ well_stored (storage (snd (renderItem_onPress book_A
                                  (world_with [book_A] [false; true])))).
Proof.
  assert (W : well_stored (storage (world_with [book_A] [false; true]))).
  { split; [right; exists [book_A]; reflexivity | left; reflexivity]. }
  destruct (well_stored_kept None "A2" "X" "reading" 1 book_A
              (world_with [book_A] [false; true]) W) as (S & _ & P & _).
  split; [exact W|]. split; [exact S|exact P].
Defined.

Lemma increasing_clock_keeps_ids_distinct_witness :
  List.NoDup (ids (stored_books (storage (world_of [book_A; book_B] 1000))))
  /\ (forall x, In x (ids (stored_books (storage (world_of [book_A; book_B] 1000)))) ->
                x <= 2)
  /\ increasing_clock 2 [add_at 5 "A"; add_at 6 "B"]
  /\ List.NoDup (ids (stored_books (storage
        (run_saves [add_at 5 "A"; add_at 6 "B"] (world_of [book_A; book_B] 1000))))).
Proof.
  assert (N : List.NoDup
                (ids (stored_books (storage (world_of [book_A; book_B] 1000))))).
  { vm_compute. constructor.
    - intros [H|H]; [discriminate H|exact H].
    - constructor; [intros H; exact H|constructor]. }
  assert (B : forall x,
             In x (ids (stored_books (storage (world_of [book_A; book_B] 1000)))) ->
             x <= 2).
  { intros x I. vm_compute in I. destruct I as [<-|[<-|[]]]; discriminate. }
  assert (C : increasing_clock 2 [add_at 5 "A"; add_at 6 "B"]).
  { simpl. repeat split. }
  split; [exact N|]. split; [exact B|]. split; [exact C|].
  exact (increasing_clock_keeps_ids_distinct [add_at 5 "A"; add_at 6 "B"] 2
           (world_of [book_A; book_B] 1000) N B C).
Defined.

Lemma saveBook_refuses_blank_only_witness :
  (all_whitespace "  " || all_whitespace "X" || all_whitespace "reading" = true
   /\ calls (snd (saveBook None "  " "X" "reading" (world_of [book_A] 1000))) =
      calls (world_of [book_A] 1000))
  /\ (all_whitespace " A " || all_whitespace "X" || all_whitespace "reading" = false
      /\ well_stored (storage (world_with [book_A] [true; true]))
      /\ (exists text,
            calls (snd (saveBook None " A " "X" "reading"
                          (world_with [book_A] [true; true]))) =
            calls (world_with [book_A] [true; true])
            ++ [GetItem BOOKS_KEY; SetItem BOOKS_KEY text])
      /\ navigation (snd (saveBook None " A " "X" "reading"
                            (world_with [book_A] [true; true]))) =
         navigation (world_with [book_A] [true; true]) ++ [GoBack]).
Proof.
  assert (W : well_stored (storage (world_with [book_A] [true; true]))).
  { split; [right; exists [book_A]; reflexivity | left; reflexivity]. }
  destruct (saveBook_refuses_blank_only None "  " "X" "reading"
              (world_of [book_A] 1000)) as (R & _).
  destruct (saveBook_refuses_blank_only None " A " "X" "reading"
              (world_with [book_A] [true; true])) as (_ & S).
  destruct (S eq_refl W) as (_ & C & G).
  split.
  - split; [reflexivity|]. exact (proj1 (proj2 (R eq_refl))).
  - split; [reflexivity|]. split; [exact W|]. split; [exact C|exact G].
Defined.
